(** * InnStereo layer configuration objects (innstereo/layer_types.py)

    A shallow embedding of the classes [PlaneLayer], [FaultPlaneLayer],
    [LineLayer] and [SmallCircleLayer].  A Python instance is its class
    together with its attribute dictionary; the methods are functions on
    such instances.  The two toolkit types the module calls into
    ([Gdk.RGBA] / [Gdk.Color] and [GdkPixbuf.Pixbuf]) are modelled next to
    the built-ins the methods use ([str] slicing, [str.format], [int]). *)

From Stdlib Require Import ZArith String Ascii List Bool.
From Stdlib Require Import Floats.SpecFloat.
From stdpp Require Import gmap strings.

Local Open Scope string_scope.
Local Open Scope Z_scope.

(** ** Python values *)

(** Binary64 arithmetic, as CPython's [float] and C's [gdouble]. *)
Definition prec : Z := 53.
Definition emax : Z := 1024.

Definition float_of_Z (n : Z) : spec_float := binary_normalize prec emax n 0 false.
Definition float_mul (x y : spec_float) : spec_float := SFmul prec emax x y.
Definition float_div (x y : spec_float) : spec_float := SFdiv prec emax x y.

(** The values an attribute of a layer can hold.  [VObj] is a toolkit
    object held by reference (a [Gtk.TreeStore], a [Gtk.TreeView]). *)
Inductive value : Type :=
| VNone
| VBool (b : bool)
| VInt (n : Z)
| VFloat (x : spec_float)
| VStr (s : string)
| VObj (id : positive).

(** The integer an [int] value, or a [float] value without fractional
    part, stands for ([8.0] and [8] both read as 8). *)
Definition integral_value (v : value) : option Z :=
  match v with
  | VInt n => Some n
  | VFloat (S754_zero _) => Some 0
  | VFloat (S754_finite s m e) =>
      let sign := if s then -1 else 1 in
      if 0 <=? e then Some (sign * (Z.pos m * 2 ^ e))
      else if Z.pos m mod 2 ^ (- e) =? 0 then Some (sign * (Z.pos m / 2 ^ (- e)))
      else None
  | _ => None
  end.

(** ** Exceptions *)

Inductive exn : Type :=
| AttributeError
| TypeError
| ValueError
| OverflowError.

Inductive result (A : Type) : Type :=
| Ok (a : A)
| Raise (e : exn).
Arguments Ok {A} a.
Arguments Raise {A} e.

#[export] Instance result_ret : MRet result := fun A a => Ok a.
#[export] Instance result_bind : MBind result := fun A B k r =>
  match r with
  | Ok a => k a
  | Raise e => Raise e
  end.

(** ** Instances *)

Inductive class : Type :=
| CPlaneLayer
| CFaultPlaneLayer
| CLineLayer
| CSmallCircleLayer.

Record layer : Type := mkLayer {
  ob_class : class;
  ob_dict : gmap string value
}.

(** [self.name] *)
Definition getattr (self : layer) (name : string) : result value :=
  match ob_dict self !! name with
  | Some v => Ok v
  | None => Raise AttributeError
  end.

(** [self.name = v] *)
Definition setattr (self : layer) (name : string) (v : value) : layer :=
  mkLayer (ob_class self) (<[name := v]> (ob_dict self)).

(** The instance [object.__new__] hands to [__init__]. *)
Definition blank (c : class) : layer := mkLayer c ∅.

(** ** Built-ins used by the methods *)

(** [s[1:]] *)
Definition slice_from_1 (v : value) : result string :=
  match v with
  | VStr (String _ rest) => Ok rest
  | VStr EmptyString => Ok EmptyString
  | _ => Raise TypeError
  end.

(** ["0x{0}ff".format(s)] *)
Definition format_0x_ff (s : string) : string := "0x" ++ s ++ "ff".

Definition code (c : ascii) : Z := Z.of_N (N_of_ascii c).

Definition hex_digit (c : ascii) : option Z :=
  let n := code c in
  if (48 <=? n) && (n <=? 57) then Some (n - 48)
  else if (97 <=? n) && (n <=? 102) then Some (n - 87)
  else if (65 <=? n) && (n <=? 70) then Some (n - 55)
  else None.

(** White space, as far as ASCII goes. *)
Definition is_space (c : ascii) : bool :=
  let n := code c in
  ((9 <=? n) && (n <=? 13)) || ((28 <=? n) && (n <=? 32)).

Fixpoint lstrip (cs : list ascii) : list ascii :=
  match cs with
  | c :: rest => if is_space c then lstrip rest else cs
  | [] => []
  end.

Definition strip (cs : list ascii) : list ascii :=
  rev (lstrip (rev (lstrip cs))).

(** Hexadecimal digits with single underscores between them;
    [after_digit] tells whether an underscore may come next. *)
Fixpoint hex_digits (acc : Z) (after_digit : bool) (cs : list ascii) : option Z :=
  match cs with
  | [] => if after_digit then Some acc else None
  | c :: rest =>
      if (code c =? 95) then
        if after_digit then hex_digits acc false rest else None
      else
        match hex_digit c with
        | Some d => hex_digits (16 * acc + d) true rest
        | None => None
        end
  end.

Definition hex_literal (cs : list ascii) : option Z :=
  match cs with
  | "0"%char :: x :: rest =>
      if (code x =? 120) || (code x =? 88) then
        match rest with
        | u :: rest' => if code u =? 95 then hex_digits 0 false rest'
                        else hex_digits 0 false rest
        | [] => None
        end
      else hex_digits 0 false cs
  | _ => hex_digits 0 false cs
  end.

(** [int(s, base=16)] *)
Definition int_base16 (s : string) : result Z :=
  let cs := strip (list_ascii_of_string s) in
  let signed :=
    match cs with
    | "-"%char :: rest => Z.opp <$> hex_literal rest
    | "+"%char :: rest => hex_literal rest
    | _ => hex_literal cs
    end in
  match signed with
  | Some n => Ok n
  | None => Raise ValueError
  end.

(** [int(x)] on a [float]: truncation towards zero. *)
Definition int_of_float (x : spec_float) : result Z :=
  match x with
  | S754_zero _ => Ok 0
  | S754_finite s m e =>
      let magnitude := if 0 <=? e then Z.pos m * 2 ^ e else Z.pos m / 2 ^ (- e) in
      Ok (if s then - magnitude else magnitude)
  | S754_infinity _ => Raise OverflowError
  | S754_nan => Raise ValueError
  end.

(** ** GdkPixbuf *)

Module GdkPixbuf.

Inductive Colorspace : Type := RGB.

(** One entry of [pixels] per pixel, row by row: red, green, blue and
    alpha bytes. *)
Record Pixbuf : Type := mkPixbuf {
  colorspace : Colorspace;
  has_alpha : bool;
  bits_per_sample : Z;
  width : Z;
  height : Z;
  pixels : list (Z * Z * Z * Z)
}.

(** [Pixbuf.new(colorspace, has_alpha, bits_per_sample, width, height)];
    the buffer is taken as zeroed until it is filled. *)
Definition new (cs : Colorspace) (alpha : bool) (bits w h : Z) : Pixbuf :=
  mkPixbuf cs alpha bits w h (repeat (0, 0, 0, 0) (Z.to_nat (w * h))).

(** The bytes of a packed [0xRRGGBBAA] word. *)
Definition unpack (pixel : Z) : Z * Z * Z * Z :=
  (Z.land (Z.shiftr pixel 24) 255,
   Z.land (Z.shiftr pixel 16) 255,
   Z.land (Z.shiftr pixel 8) 255,
   Z.land pixel 255).

(** [pixbuf.fill(pixel)]: [pixel] is marshalled to a [guint32]. *)
Definition fill (p : Pixbuf) (pixel : Z) : result Pixbuf :=
  if (0 <=? pixel) && (pixel <? 2 ^ 32) then
    let '(r, g, b, a) := unpack pixel in
    let px := if has_alpha p then (r, g, b, a) else (r, g, b, 255) in
    Ok (mkPixbuf (colorspace p) (has_alpha p) (bits_per_sample p)
          (width p) (height p) (map (fun _ => px) (pixels p)))
  else Raise OverflowError.

End GdkPixbuf.

(** ** Gdk colours *)

Module Gdk.

Module Color.
(** [Gdk.Color]: three 16-bit channels, no alpha. *)
Record t : Type := mk { red : Z; green : Z; blue : Z }.

Definition MAX_VALUE : Z := 65535.

Definition in_range (x : Z) : bool := (0 <=? x) && (x <=? MAX_VALUE).

(** [Color(red, green, blue)]: the fields are [guint16]. *)
Definition new (r g b : Z) : result t :=
  if in_range r && in_range g && in_range b then Ok (mk r g b)
  else Raise OverflowError.

(** The most significant byte of each channel. *)
Definition to_bytes (c : t) : Z * Z * Z :=
  (Z.shiftr (red c) 8, Z.shiftr (green c) 8, Z.shiftr (blue c) 8).
End Color.

Module RGBA.
Record t : Type := mk {
  red : spec_float; green : spec_float; blue : spec_float; alpha : spec_float
}.

(** [Gdk.RGBA()]: every channel defaults to [1.0]. *)
Definition new : t :=
  mk (float_of_Z 1) (float_of_Z 1) (float_of_Z 1) (float_of_Z 1).

(** [len] hexadecimal digits at the head of [cs], and what follows. *)
Fixpoint hex (len : nat) (acc : Z) (cs : list ascii) : option (Z * list ascii) :=
  match len with
  | O => Some (acc, cs)
  | S len' =>
      match cs with
      | c :: rest =>
          match hex_digit c with
          | Some d => hex len' (Z.lor (Z.shiftl acc 4) d) rest
          | None => None
          end
      | [] => None
      end
  end.

(** Widening of a channel of [bits] bits to 16 bits by repetition. *)
Fixpoint widen (fuel : nat) (bits c : Z) : Z :=
  match fuel with
  | O => c
  | S fuel' =>
      if bits <? 16 then widen fuel' (bits * 2) (Z.lor c (Z.shiftr c bits))
      else c
  end.

Definition scale16 (len : nat) (c : Z) : Z :=
  let bits := Z.of_nat len * 4 in
  widen 4 bits (Z.shiftl c (16 - bits)).

(** A specification that starts with [#]: 3, 6, 9 or 12 digits. *)
Definition parse_hash (digits : list ascii) : option (Z * Z * Z) :=
  let n := length digits in
  if (Nat.eqb n 3 || Nat.eqb n 6 || Nat.eqb n 9 || Nat.eqb n 12)%bool then
    let len := Nat.div n 3 in
    match hex len 0 digits with
    | Some (r, rest1) =>
        match hex len 0 rest1 with
        | Some (g, rest2) =>
            match hex len 0 rest2 with
            | Some (b, _) => Some (scale16 len r, scale16 len g, scale16 len b)
            | None => None
            end
        | None => None
        end
    | None => None
    end
  else None.

Definition of_channels (c : Z * Z * Z) : t :=
  let '(r, g, b) := c in
  mk (float_div (float_of_Z r) (float_of_Z 65535))
     (float_div (float_of_Z g) (float_of_Z 65535))
     (float_div (float_of_Z b) (float_of_Z 65535))
     (float_of_Z 1).

(** [rgba.parse(spec)]: whether [spec] was understood, and [rgba]
    afterwards (untouched when it was not).  [other] stands for the
    toolkit's reading of the specifications that do not start with
    [#]: colour names and the [rgb(...)] / [rgba(...)] notation. *)
Definition parse (other : string -> option t) (self : t) (spec : value)
  : result (bool * t) :=
  match spec with
  | VStr s =>
      let parsed :=
        match list_ascii_of_string s with
        | "#"%char :: digits => of_channels <$> parse_hash digits
        | _ => other s
        end in
      match parsed with
      | Some rgba => Ok (true, rgba)
      | None => Ok (false, self)
      end
  | _ => Raise TypeError
  end.

(** [rgba.to_color()]: the alpha channel is dropped. *)
Definition to_color (self : t) : result Color.t :=
  r ← int_of_float (float_mul (red self) (float_of_Z Color.MAX_VALUE));
  g ← int_of_float (float_mul (green self) (float_of_Z Color.MAX_VALUE));
  b ← int_of_float (float_mul (blue self) (float_of_Z Color.MAX_VALUE));
  Color.new r g b.
End RGBA.

End Gdk.

(** A toolkit that knows no colour by name: it reads the specifications
    that start with [#] and rejects every other string. *)
Definition no_named_colors (s : string) : option Gdk.RGBA.t := None.

(** ** The layer classes *)

Section Layers.

(** What [Gdk.RGBA.parse] makes of a specification that does not start
    with [#] (a colour name, [rgb(...)], [rgba(...)]); [None] when it
    rejects the string. *)
Variable named_color : string -> option Gdk.RGBA.t.

(** *** [PlaneLayer] *)

Definition PlaneLayer__init__ (self : layer) (treestore treeview : value) : layer :=
  let self := setattr self "data_treestore" treestore in
  let self := setattr self "data_treeview" treeview in
  let self := setattr self "type" (VStr "plane") in
  let self := setattr self "label" (VStr "Plane layer") in
  (* Great circle / Small circle properties *)
  let self := setattr self "render_gcircles" (VBool true) in
  let self := setattr self "line_color" (VStr "#0000ff") in
  let self := setattr self "line_width" (VFloat (float_of_Z 1)) in
  let self := setattr self "line_style" (VStr "-") in
  let self := setattr self "line_alpha" (VFloat (float_of_Z 1)) in
  let self := setattr self "capstyle" (VStr "butt") in
  (* Pole properties *)
  let self := setattr self "render_poles" (VBool false) in
  let self := setattr self "pole_style" (VStr "o") in
  let self := setattr self "pole_size" (VFloat (float_of_Z 8)) in
  let self := setattr self "pole_fill" (VStr "#ff7e00") in
  let self := setattr self "pole_edge_color" (VStr "#000000") in
  let self := setattr self "pole_edge_width" (VFloat (float_of_Z 1)) in
  let self := setattr self "pole_alpha" (VFloat (float_of_Z 1)) in
  (* Linear properties *)
  let self := setattr self "render_linears" (VBool true) in
  let self := setattr self "marker_style" (VStr "o") in
  let self := setattr self "marker_size" (VFloat (float_of_Z 8)) in
  let self := setattr self "marker_fill" (VStr "#1283eb") in
  let self := setattr self "marker_edge_color" (VStr "#000000") in
  let self := setattr self "marker_edge_width" (VFloat (float_of_Z 1)) in
  let self := setattr self "marker_alpha" (VFloat (float_of_Z 1)) in
  (* Rose diagram properties *)
  let self := setattr self "rose_spacing" (VInt 10) in
  let self := setattr self "rose_bottom" (VInt 0) in
  (* Faulplane properties *)
  let self := setattr self "draw_hoeppener" (VBool false) in
  let self := setattr self "draw_lp_plane" (VBool false) in
  (* Contours *)
  let self := setattr self "draw_contour_fills" (VBool false) in
  let self := setattr self "draw_contour_lines" (VBool false) in
  let self := setattr self "draw_contour_labels" (VBool false) in
  let self := setattr self "render_plane_contours" (VBool false) in
  let self := setattr self "render_line_contours" (VBool true) in
  let self := setattr self "colormap" (VStr "Blues") in
  let self := setattr self "contour_resolution" (VInt 40) in
  let self := setattr self "contour_method" (VStr "exponential_kamb") in
  let self := setattr self "contour_sigma" (VInt 2) in
  let self := setattr self "contour_line_color" (VStr "#000000") in
  let self := setattr self "contour_use_line_color" (VBool true) in
  let self := setattr self "contour_line_width" (VInt 1) in
  let self := setattr self "contour_line_style" (VStr "-") in
  let self := setattr self "contour_label_size" (VInt 12) in
  self.

Definition get_pixbuf (self : layer) : result GdkPixbuf.Pixbuf :=
  line_color ← getattr self "line_color";
  tail ← slice_from_1 line_color;
  line_color_alpha ← int_base16 (format_0x_ff tail);
  let pixbuf_color := GdkPixbuf.new GdkPixbuf.RGB true 8 16 16 in
  GdkPixbuf.fill pixbuf_color line_color_alpha.

Definition get_rgba (self : layer) : result Gdk.Color.t :=
  let rgba := Gdk.RGBA.new in
  line_color ← getattr self "line_color";
  parsed ← Gdk.RGBA.parse named_color rgba line_color;
  let rgba := snd parsed in
  Gdk.RGBA.to_color rgba.

Definition get_marker_rgba (self : layer) : result Gdk.Color.t :=
  let rgba := Gdk.RGBA.new in
  marker_fill ← getattr self "marker_fill";
  parsed ← Gdk.RGBA.parse named_color rgba marker_fill;
  let rgba := snd parsed in
  Gdk.RGBA.to_color rgba.

Definition get_pole_rgba (self : layer) : result Gdk.Color.t :=
  let rgba := Gdk.RGBA.new in
  pole_fill ← getattr self "pole_fill";
  parsed ← Gdk.RGBA.parse named_color rgba pole_fill;
  let rgba := snd parsed in
  Gdk.RGBA.to_color rgba.

Definition get_pole_edge_rgba (self : layer) : result Gdk.Color.t :=
  let rgba := Gdk.RGBA.new in
  pole_edge_color ← getattr self "pole_edge_color";
  parsed ← Gdk.RGBA.parse named_color rgba pole_edge_color;
  let rgba := snd parsed in
  Gdk.RGBA.to_color rgba.

Definition get_marker_edge_rgba (self : layer) : result Gdk.Color.t :=
  let rgba := Gdk.RGBA.new in
  marker_edge_color ← getattr self "marker_edge_color";
  parsed ← Gdk.RGBA.parse named_color rgba marker_edge_color;
  let rgba := snd parsed in
  Gdk.RGBA.to_color rgba.

Definition get_data_treestore (self : layer) : result value :=
  getattr self "data_treestore".

Definition get_data_treeview (self : layer) : result value :=
  getattr self "data_treeview".

Definition get_layer_type (self : layer) : result value :=
  getattr self "type".

Definition get_line_color (self : layer) : result value :=
  getattr self "line_color".

Definition set_line_color (self : layer) (new_color : value) : layer :=
  setattr self "line_color" new_color.

Definition get_label (self : layer) : result value :=
  getattr self "label".

Definition set_label (self : layer) (new_label : value) : layer :=
  setattr self "label" new_label.

Definition get_line_width (self : layer) : result value :=
  getattr self "line_width".

Definition set_line_width (self : layer) (new_line_width : value) : layer :=
  setattr self "line_width" new_line_width.

Definition get_line_style (self : layer) : result value :=
  getattr self "line_style".

Definition set_line_style (self : layer) (new_line_style : value) : layer :=
  setattr self "line_style" new_line_style.

Definition get_capstyle (self : layer) : result value :=
  getattr self "capstyle".

Definition set_capstyle (self : layer) (new_capstyle : value) : layer :=
  setattr self "capstyle" new_capstyle.

Definition get_pole_style (self : layer) : result value :=
  getattr self "pole_style".

Definition set_pole_style (self : layer) (new_pole_style : value) : layer :=
  setattr self "pole_style" new_pole_style.

Definition get_pole_size (self : layer) : result value :=
  getattr self "pole_size".

Definition set_pole_size (self : layer) (new_pole_size : value) : layer :=
  setattr self "pole_size" new_pole_size.

Definition get_pole_fill (self : layer) : result value :=
  getattr self "pole_fill".

Definition set_pole_fill (self : layer) (new_pole_fill : value) : layer :=
  setattr self "pole_fill" new_pole_fill.

Definition get_pole_edge_color (self : layer) : result value :=
  getattr self "pole_edge_color".

Definition set_pole_edge_color (self : layer) (new_pole_edge_color : value) : layer :=
  setattr self "pole_edge_color" new_pole_edge_color.

Definition get_pole_edge_width (self : layer) : result value :=
  getattr self "pole_edge_width".

Definition set_pole_edge_width (self : layer) (new_pole_edge_width : value) : layer :=
  setattr self "pole_edge_width" new_pole_edge_width.

Definition get_pole_alpha (self : layer) : result value :=
  getattr self "pole_alpha".

Definition get_marker_style (self : layer) : result value :=
  getattr self "marker_style".

Definition set_marker_style (self : layer) (new_marker_style : value) : layer :=
  setattr self "marker_style" new_marker_style.

Definition get_marker_size (self : layer) : result value :=
  getattr self "marker_size".

Definition set_marker_size (self : layer) (new_marker_size : value) : layer :=
  setattr self "marker_size" new_marker_size.

Definition get_marker_fill (self : layer) : result value :=
  getattr self "marker_fill".

Definition set_marker_fill (self : layer) (new_marker_fill : value) : layer :=
  setattr self "marker_fill" new_marker_fill.

Definition get_marker_edge_width (self : layer) : result value :=
  getattr self "marker_edge_width".

Definition set_marker_edge_width (self : layer) (new_marker_edge_width : value) : layer :=
  setattr self "marker_edge_width" new_marker_edge_width.

Definition get_marker_edge_color (self : layer) : result value :=
  getattr self "marker_edge_color".

Definition set_marker_edge_color (self : layer) (new_marker_edge_color : value) : layer :=
  setattr self "marker_edge_color" new_marker_edge_color.

Definition get_line_alpha (self : layer) : result value :=
  getattr self "line_alpha".

Definition set_line_alpha (self : layer) (new_line_alpha : value) : layer :=
  setattr self "line_alpha" new_line_alpha.

Definition get_marker_alpha (self : layer) : result value :=
  getattr self "marker_alpha".

Definition set_marker_alpha (self : layer) (new_marker_alpha : value) : layer :=
  setattr self "marker_alpha" new_marker_alpha.

Definition get_render_gcircles (self : layer) : result value :=
  getattr self "render_gcircles".

Definition set_render_gcircles (self : layer) (new_render_gcircles_state : value) : layer :=
  setattr self "render_gcircles" new_render_gcircles_state.

Definition get_render_poles (self : layer) : result value :=
  getattr self "render_poles".

Definition set_render_poles (self : layer) (new_render_poles_state : value) : layer :=
  setattr self "render_poles" new_render_poles_state.

Definition get_render_linears (self : layer) : result value :=
  getattr self "render_linears".

Definition set_render_linears (self : layer) (new_render_linears_state : value) : layer :=
  setattr self "render_linears" new_render_linears_state.

Definition get_draw_contour_fills (self : layer) : result value :=
  getattr self "draw_contour_fills".

Definition set_draw_contour_fills (self : layer) (new_state : value) : layer :=
  setattr self "draw_contour_fills" new_state.

Definition get_draw_contour_lines (self : layer) : result value :=
  getattr self "draw_contour_lines".

Definition set_draw_contour_lines (self : layer) (new_state : value) : layer :=
  setattr self "draw_contour_lines" new_state.

Definition get_draw_contour_labels (self : layer) : result value :=
  getattr self "draw_contour_labels".

Definition set_draw_contour_labels (self : layer) (new_state : value) : layer :=
  setattr self "draw_contour_labels" new_state.

Definition get_render_pole_contours (self : layer) : result value :=
  getattr self "render_plane_contours".

Definition set_render_pole_contours (self : layer) (new_state : value) : layer :=
  setattr self "render_plane_contours" new_state.

Definition get_render_line_contours (self : layer) : result value :=
  getattr self "render_line_contours".

Definition set_render_line_contours (self : layer) (new_state : value) : layer :=
  setattr self "render_line_contours" new_state.

Definition get_rose_spacing (self : layer) : result value :=
  getattr self "rose_spacing".

Definition set_rose_spacing (self : layer) (new_spacing : value) : layer :=
  setattr self "rose_spacing" new_spacing.

Definition get_rose_bottom (self : layer) : result value :=
  getattr self "rose_bottom".

Definition set_rose_bottom (self : layer) (new_bottom : value) : layer :=
  setattr self "rose_bottom" new_bottom.

Definition get_colormap (self : layer) : result value :=
  getattr self "colormap".

Definition set_colormap (self : layer) (new_colormap : value) : layer :=
  setattr self "colormap" new_colormap.

Definition get_contour_resolution (self : layer) : result value :=
  getattr self "contour_resolution".

Definition set_contour_resolution (self : layer) (new_resolution : value) : layer :=
  setattr self "contour_resolution" new_resolution.

Definition get_contour_method (self : layer) : result value :=
  getattr self "contour_method".

Definition set_contour_method (self : layer) (new_method : value) : layer :=
  setattr self "contour_method" new_method.

Definition get_contour_line_width (self : layer) : result value :=
  getattr self "contour_line_width".

Definition set_contour_line_width (self : layer) (new_width : value) : layer :=
  setattr self "contour_line_width" new_width.

Definition get_contour_line_color (self : layer) : result value :=
  getattr self "contour_line_color".

Definition set_contour_line_color (self : layer) (new_color : value) : layer :=
  setattr self "contour_line_color" new_color.

Definition get_contour_line_rgba (self : layer) : result Gdk.Color.t :=
  let rgba := Gdk.RGBA.new in
  contour_line_color ← getattr self "contour_line_color";
  parsed ← Gdk.RGBA.parse named_color rgba contour_line_color;
  let rgba := snd parsed in
  Gdk.RGBA.to_color rgba.

Definition get_contour_sigma (self : layer) : result value :=
  getattr self "contour_sigma".

Definition set_contour_sigma (self : layer) (new_sigma : value) : layer :=
  setattr self "contour_sigma" new_sigma.

Definition get_contour_line_style (self : layer) : result value :=
  getattr self "contour_line_style".

Definition set_contour_line_style (self : layer) (new_style : value) : layer :=
  setattr self "contour_line_style" new_style.

Definition get_contour_label_size (self : layer) : result value :=
  getattr self "contour_label_size".

Definition set_contour_label_size (self : layer) (new_size : value) : layer :=
  setattr self "contour_label_size" new_size.

Definition get_use_line_color (self : layer) : result value :=
  getattr self "contour_use_line_color".

Definition set_use_line_color (self : layer) (new_state : value) : layer :=
  setattr self "contour_use_line_color" new_state.

Definition get_draw_hoeppener (self : layer) : result value :=
  getattr self "draw_hoeppener".

Definition set_draw_hoeppener (self : layer) (new_state : value) : layer :=
  setattr self "draw_hoeppener" new_state.

Definition get_draw_lp_plane (self : layer) : result value :=
  getattr self "draw_lp_plane".

Definition set_draw_lp_plane (self : layer) (new_state : value) : layer :=
  setattr self "draw_lp_plane" new_state.

(** *** [FaultPlaneLayer] *)

Definition FaultPlaneLayer__init__ (self : layer) (treestore treeview : value) : layer :=
  let self := PlaneLayer__init__ self treestore treeview in
  let self := setattr self "type" (VStr "faultplane") in
  let self := setattr self "label" (VStr "Faultplane layer") in
  self.

(** *** [LineLayer] *)

Definition LineLayer__init__ (self : layer) (treestore treeview : value) : layer :=
  let self := PlaneLayer__init__ self treestore treeview in
  let self := setattr self "type" (VStr "line") in
  let self := setattr self "label" (VStr "Linear layer") in
  self.

Definition LineLayer_get_pixbuf (self : layer) : result GdkPixbuf.Pixbuf :=
  marker_fill ← getattr self "marker_fill";
  tail ← slice_from_1 marker_fill;
  marker_color_alpha ← int_base16 (format_0x_ff tail);
  let pixbuf_color := GdkPixbuf.new GdkPixbuf.RGB true 8 16 16 in
  GdkPixbuf.fill pixbuf_color marker_color_alpha.

(** *** [SmallCircleLayer] *)

Definition SmallCircleLayer__init__ (self : layer) (treestore treeview : value) : layer :=
  let self := PlaneLayer__init__ self treestore treeview in
  let self := setattr self "type" (VStr "smallcircle") in
  let self := setattr self "label" (VStr "Small circle layer") in
  self.

(** ** Classes as method tables *)

(** What a method returns. *)
Inductive retval : Type :=
| RNone
| RValue (v : value)
| RColor (c : Gdk.Color.t)
| RPixbuf (p : GdkPixbuf.Pixbuf).

(** The shapes of method the module defines next to [__init__]. *)
Inductive method : Type :=
| Getter (f : layer -> result value)
| Setter (f : layer -> value -> layer)
| ColorGetter (f : layer -> result Gdk.Color.t)
| PixbufGetter (f : layer -> result GdkPixbuf.Pixbuf).

(** The [def]s of the body of [PlaneLayer], in source order. *)
Definition PlaneLayer_methods : list (string * method) :=
  [ ("get_pixbuf", PixbufGetter get_pixbuf);
    ("get_rgba", ColorGetter get_rgba);
    ("get_marker_rgba", ColorGetter get_marker_rgba);
    ("get_pole_rgba", ColorGetter get_pole_rgba);
    ("get_pole_edge_rgba", ColorGetter get_pole_edge_rgba);
    ("get_marker_edge_rgba", ColorGetter get_marker_edge_rgba);
    ("get_data_treestore", Getter get_data_treestore);
    ("get_data_treeview", Getter get_data_treeview);
    ("get_layer_type", Getter get_layer_type);
    ("get_line_color", Getter get_line_color);
    ("set_line_color", Setter set_line_color);
    ("get_label", Getter get_label);
    ("set_label", Setter set_label);
    ("get_line_width", Getter get_line_width);
    ("set_line_width", Setter set_line_width);
    ("get_line_style", Getter get_line_style);
    ("set_line_style", Setter set_line_style);
    ("get_capstyle", Getter get_capstyle);
    ("set_capstyle", Setter set_capstyle);
    ("get_pole_style", Getter get_pole_style);
    ("set_pole_style", Setter set_pole_style);
    ("get_pole_size", Getter get_pole_size);
    ("set_pole_size", Setter set_pole_size);
    ("get_pole_fill", Getter get_pole_fill);
    ("set_pole_fill", Setter set_pole_fill);
    ("get_pole_edge_color", Getter get_pole_edge_color);
    ("set_pole_edge_color", Setter set_pole_edge_color);
    ("get_pole_edge_width", Getter get_pole_edge_width);
    ("set_pole_edge_width", Setter set_pole_edge_width);
    ("get_pole_alpha", Getter get_pole_alpha);
    ("get_marker_style", Getter get_marker_style);
    ("set_marker_style", Setter set_marker_style);
    ("get_marker_size", Getter get_marker_size);
    ("set_marker_size", Setter set_marker_size);
    ("get_marker_fill", Getter get_marker_fill);
    ("set_marker_fill", Setter set_marker_fill);
    ("get_marker_edge_width", Getter get_marker_edge_width);
    ("set_marker_edge_width", Setter set_marker_edge_width);
    ("get_marker_edge_color", Getter get_marker_edge_color);
    ("set_marker_edge_color", Setter set_marker_edge_color);
    ("get_line_alpha", Getter get_line_alpha);
    ("set_line_alpha", Setter set_line_alpha);
    ("get_marker_alpha", Getter get_marker_alpha);
    ("set_marker_alpha", Setter set_marker_alpha);
    ("get_render_gcircles", Getter get_render_gcircles);
    ("set_render_gcircles", Setter set_render_gcircles);
    ("get_render_poles", Getter get_render_poles);
    ("set_render_poles", Setter set_render_poles);
    ("get_render_linears", Getter get_render_linears);
    ("set_render_linears", Setter set_render_linears);
    ("get_draw_contour_fills", Getter get_draw_contour_fills);
    ("set_draw_contour_fills", Setter set_draw_contour_fills);
    ("get_draw_contour_lines", Getter get_draw_contour_lines);
    ("set_draw_contour_lines", Setter set_draw_contour_lines);
    ("get_draw_contour_labels", Getter get_draw_contour_labels);
    ("set_draw_contour_labels", Setter set_draw_contour_labels);
    ("get_render_pole_contours", Getter get_render_pole_contours);
    ("set_render_pole_contours", Setter set_render_pole_contours);
    ("get_render_line_contours", Getter get_render_line_contours);
    ("set_render_line_contours", Setter set_render_line_contours);
    ("get_rose_spacing", Getter get_rose_spacing);
    ("set_rose_spacing", Setter set_rose_spacing);
    ("get_rose_bottom", Getter get_rose_bottom);
    ("set_rose_bottom", Setter set_rose_bottom);
    ("get_colormap", Getter get_colormap);
    ("set_colormap", Setter set_colormap);
    ("get_contour_resolution", Getter get_contour_resolution);
    ("set_contour_resolution", Setter set_contour_resolution);
    ("get_contour_method", Getter get_contour_method);
    ("set_contour_method", Setter set_contour_method);
    ("get_contour_line_width", Getter get_contour_line_width);
    ("set_contour_line_width", Setter set_contour_line_width);
    ("get_contour_line_color", Getter get_contour_line_color);
    ("set_contour_line_color", Setter set_contour_line_color);
    ("get_contour_line_rgba", ColorGetter get_contour_line_rgba);
    ("get_contour_sigma", Getter get_contour_sigma);
    ("set_contour_sigma", Setter set_contour_sigma);
    ("get_contour_line_style", Getter get_contour_line_style);
    ("set_contour_line_style", Setter set_contour_line_style);
    ("get_contour_label_size", Getter get_contour_label_size);
    ("set_contour_label_size", Setter set_contour_label_size);
    ("get_use_line_color", Getter get_use_line_color);
    ("set_use_line_color", Setter set_use_line_color);
    ("get_draw_hoeppener", Getter get_draw_hoeppener);
    ("set_draw_hoeppener", Setter set_draw_hoeppener);
    ("get_draw_lp_plane", Getter get_draw_lp_plane);
    ("set_draw_lp_plane", Setter set_draw_lp_plane) ].

Definition FaultPlaneLayer_methods : list (string * method) := [].

Definition LineLayer_methods : list (string * method) :=
  [ ("get_pixbuf", PixbufGetter LineLayer_get_pixbuf) ].

Definition SmallCircleLayer_methods : list (string * method) := [].

Definition class_methods (c : class) : list (string * method) :=
  match c with
  | CPlaneLayer => PlaneLayer_methods
  | CFaultPlaneLayer => FaultPlaneLayer_methods
  | CLineLayer => LineLayer_methods
  | CSmallCircleLayer => SmallCircleLayer_methods
  end.

(** Method resolution order: the class, then its base. *)
Definition mro (c : class) : list class :=
  match c with
  | CPlaneLayer => [CPlaneLayer]
  | _ => [c; CPlaneLayer]
  end.

Fixpoint assoc (name : string) (table : list (string * method)) : option method :=
  match table with
  | [] => None
  | (n, m) :: rest => if String.eqb n name then Some m else assoc name rest
  end.

Fixpoint resolve_in (classes : list class) (name : string) : option method :=
  match classes with
  | [] => None
  | c :: rest =>
      match assoc name (class_methods c) with
      | Some m => Some m
      | None => resolve_in rest name
      end
  end.

Definition resolve (c : class) (name : string) : option method :=
  resolve_in (mro c) name.

(** A call [self.name(args)]: the value returned and the instance
    afterwards. *)
Definition invoke (self : layer) (name : string) (args : list value)
  : result (retval * layer) :=
  match resolve (ob_class self) name with
  | None => Raise AttributeError
  | Some (Getter f) =>
      match args with
      | [] => v ← f self; Ok (RValue v, self)
      | _ => Raise TypeError
      end
  | Some (Setter f) =>
      match args with
      | [v] => Ok (RNone, f self v)
      | _ => Raise TypeError
      end
  | Some (ColorGetter f) =>
      match args with
      | [] => c ← f self; Ok (RColor c, self)
      | _ => Raise TypeError
      end
  | Some (PixbufGetter f) =>
      match args with
      | [] => p ← f self; Ok (RPixbuf p, self)
      | _ => Raise TypeError
      end
  end.

Definition init_of (c : class) : layer -> value -> value -> layer :=
  match c with
  | CPlaneLayer => PlaneLayer__init__
  | CFaultPlaneLayer => FaultPlaneLayer__init__
  | CLineLayer => LineLayer__init__
  | CSmallCircleLayer => SmallCircleLayer__init__
  end.

(** A call [C(args)]: a new instance of [C], initialised by its
    [__init__]. *)
Definition construct (c : class) (args : list value) : result layer :=
  match args with
  | [treestore; treeview] => Ok (init_of c (blank c) treestore treeview)
  | _ => Raise TypeError
  end.

(** ** Accessors by name *)

#[export] Instance result_fmap : FMap result := fun A B f r =>
  match r with
  | Ok a => Ok (f a)
  | Raise e => Raise e
  end.

(** The method names an instance of [c] answers to. *)
Definition visible_names (c : class) : list string :=
  flat_map (fun k => map fst (class_methods k)) (mro c).

(** [name] without its prefix [p]. *)
Definition strip_prefix (p name : string) : option string :=
  if String.prefix p name
  then Some (substring (String.length p) (String.length name - String.length p) name)
  else None.

Definition is_getter (m : option method) : bool :=
  match m with Some (Getter _) => true | _ => false end.

Definition is_setter (m : option method) : bool :=
  match m with Some (Setter _) => true | _ => false end.

Definition is_absent (m : option method) : bool :=
  match m with None => true | _ => false end.

(** The [X] for which [get_X] returns a stored attribute as it is. *)
Definition getter_stems (c : class) : list string :=
  List.filter (fun a => is_getter (resolve c ("get_" ++ a)))
    (omap (strip_prefix "get_") (visible_names c)).

(** The [X] with a method [set_X]. *)
Definition setter_stems (c : class) : list string :=
  List.filter (fun a => is_setter (resolve c ("set_" ++ a)))
    (omap (strip_prefix "set_") (visible_names c)).

(** The [X] with both [get_X] and [set_X]. *)
Definition paired_stems (c : class) : list string :=
  List.filter (fun a => is_setter (resolve c ("set_" ++ a))) (getter_stems c).

(** The [X] with [get_X] and no method named [set_X]. *)
Definition getter_only_stems (c : class) : list string :=
  List.filter (fun a => is_absent (resolve c ("set_" ++ a))) (getter_stems c).

(** The attribute behind [get_X] / [set_X]: [X] itself, but for three
    accessors whose name departs from the attribute's. *)
Definition attribute_of (stem : string) : string :=
  if String.eqb stem "layer_type" then "type"
  else if String.eqb stem "render_pole_contours" then "render_plane_contours"
  else if String.eqb stem "use_line_color" then "contour_use_line_color"
  else stem.

(** A call whose exception is caught leaves the instance as it was. *)
Definition call_then (self : layer) (call : string * list value) : layer :=
  match invoke self (fst call) (snd call) with
  | Ok (_, self') => self'
  | Raise _ => self
  end.

Definition run_calls (calls : list (string * list value)) (self : layer) : layer :=
  fold_left call_then calls self.

(** The tag and the label the [__init__] of each class assigns. *)
Definition kind_tag (c : class) : string :=
  match c with
  | CPlaneLayer => "plane"
  | CFaultPlaneLayer => "faultplane"
  | CLineLayer => "line"
  | CSmallCircleLayer => "smallcircle"
  end.

Definition default_label (c : class) : string :=
  match c with
  | CPlaneLayer => "Plane layer"
  | CFaultPlaneLayer => "Faultplane layer"
  | CLineLayer => "Linear layer"
  | CSmallCircleLayer => "Small circle layer"
  end.

Definition raises {A : Type} (r : result A) : Prop := exists e, r = Raise e.

(** A call [self.getter()] returns [v] and leaves [self] as it was. *)
Definition returns (self : layer) (getter : string) (v : value) : Prop :=
  invoke self getter [] = Ok (RValue v, self).

(** [self.get_pixbuf()] returns a 16 by 16 swatch with an alpha channel
    whose pixels all are [rgba], and leaves [self] as it was. *)
Definition swatch (self : layer) (rgba : Z * Z * Z * Z) : Prop :=
  exists p : GdkPixbuf.Pixbuf,
    invoke self "get_pixbuf" [] = Ok (RPixbuf p, self) /\
    GdkPixbuf.width p = 16 /\ GdkPixbuf.height p = 16 /\
    GdkPixbuf.has_alpha p = true /\
    GdkPixbuf.pixels p = repeat rgba 256.

(** The white of [Gdk.RGBA()] as a [Gdk.Color]. *)
Definition white : Gdk.Color.t := Gdk.Color.mk 65535 65535 65535.

(** The attribute [get_pixbuf] reads, by class: the override of
    [LineLayer] reads the marker fill. *)
Definition swatch_source (c : class) : string :=
  match c with
  | CLineLayer => "marker_fill"
  | _ => "line_color"
  end.

(** The getters that return a [Gdk.Color], each with the attribute it
    parses. *)
Definition rgba_getters : list (string * string) :=
  [ ("get_rgba", "line_color");
    ("get_marker_rgba", "marker_fill");
    ("get_pole_rgba", "pole_fill");
    ("get_pole_edge_rgba", "pole_edge_color");
    ("get_marker_edge_rgba", "marker_edge_color");
    ("get_contour_line_rgba", "contour_line_color") ].

(** The byte written with the hexadecimal digits [hi] and [lo]. *)
Definition byte_of (hi lo : Z) : Z := 16 * hi + lo.

(** A string of the given characters. *)
Definition string_of (cs : list ascii) : string := string_of_list_ascii cs.

(** A new layer of class [c] on two toolkit objects. *)
Definition sample (c : class) : layer := init_of c (blank c) (VObj 1) (VObj 2).


(** ** Attribute access *)

Lemma getattr_setattr_eq (self : layer) (a : string) (v : value) :
  getattr (setattr self a v) a = Ok v.
Proof. unfold getattr, setattr; simpl. by rewrite lookup_insert_eq. Qed.

Lemma getattr_setattr_ne (self : layer) (a b : string) (v : value) :
  a ≠ b -> getattr (setattr self a v) b = getattr self b.
Proof. intros Hne. unfold getattr, setattr; simpl. by rewrite lookup_insert_ne. Qed.

Lemma dict_setattr_ne (self : layer) (a k : string) (v : value) :
  k ≠ a -> ob_dict (setattr self a v) !! k = ob_dict self !! k.
Proof. intros Hne. unfold setattr; simpl. by rewrite lookup_insert_ne. Qed.

(** ** Method resolution *)

(** Only [get_pixbuf] is overridden: every other name is looked up in
    the body of [PlaneLayer], whatever the class. *)
Lemma resolve_base (c : class) (name : string) :
  name ≠ "get_pixbuf" -> resolve c name = assoc name PlaneLayer_methods.
Proof.
  intros Hne.
  assert (Hbase : forall m : option method,
             match m with Some x => Some x | None => None end = m)
    by (by intros [x |]).
  destruct c; unfold resolve, mro, resolve_in, class_methods;
    unfold FaultPlaneLayer_methods, LineLayer_methods, SmallCircleLayer_methods;
    cbn [assoc]; try apply Hbase.
  destruct (String.eqb_spec "get_pixbuf" name) as [E | _]; [by subst |].
  apply Hbase.
Qed.

Lemma resolve_get_pixbuf (c : class) :
  resolve c "get_pixbuf" =
  Some (PixbufGetter (match c with CLineLayer => LineLayer_get_pixbuf | _ => get_pixbuf end)).
Proof. by destruct c. Qed.

Lemma stems_same (c : class) :
  getter_stems c = getter_stems CPlaneLayer /\
  setter_stems c = setter_stems CPlaneLayer /\
  paired_stems c = paired_stems CPlaneLayer /\
  getter_only_stems c = getter_only_stems CPlaneLayer.
Proof. destruct c; vm_compute; auto. Qed.

(** Case analysis on membership in a list given by its elements. *)
Ltac each_member H :=
  repeat (apply elem_of_cons in H as [-> | H]);
  try (apply elem_of_nil in H; contradiction).

Lemma setter_resolves (c : class) (a : string) :
  a ∈ setter_stems c ->
  resolve c ("set_" ++ a) = Some (Setter (fun self v => setattr self (attribute_of a) v)).
Proof.
  intros H. destruct (stems_same c) as (_ & -> & _) in H.
  rewrite resolve_base.
  - set (l := setter_stems CPlaneLayer) in H. vm_compute in l. subst l.
    each_member H; reflexivity.
  - simpl. discriminate.
Qed.

Lemma getter_resolves (c : class) (a : string) :
  a ∈ getter_stems c ->
  resolve c ("get_" ++ a) = Some (Getter (fun self => getattr self (attribute_of a))).
Proof.
  intros H. destruct (stems_same c) as (-> & _) in H.
  set (l := getter_stems CPlaneLayer) in H. vm_compute in l. subst l.
  rewrite resolve_base.
  - each_member H; reflexivity.
  - each_member H; discriminate.
Qed.

Lemma paired_is_both (c : class) (a : string) :
  a ∈ paired_stems c -> a ∈ getter_stems c /\ a ∈ setter_stems c.
Proof.
  destruct (stems_same c) as (-> & -> & -> & _). intros H.
  set (l := paired_stems CPlaneLayer) in H. vm_compute in l. subst l.
  each_member H; split; apply (bool_decide_unpack _); vm_compute; reflexivity.
Qed.

(** Different accessors stand for different attributes. *)
Lemma attribute_of_distinct (c : class) (a b : string) :
  a ∈ getter_stems c -> b ∈ getter_stems c -> a ≠ b ->
  attribute_of a ≠ attribute_of b.
Proof.
  intros Ha Hb Hne Heq. apply Hne.
  destruct (stems_same c) as (E & _). rewrite E in Ha, Hb. clear E.
  assert (Hnd : NoDup (attribute_of <$> getter_stems CPlaneLayer)).
  { apply (bool_decide_unpack _). vm_compute. reflexivity. }
  revert Ha Hb Hnd. generalize (getter_stems CPlaneLayer) as l.
  induction l as [| x l IH]; intros Ha Hb Hnd.
  - by apply elem_of_nil in Ha.
  - rewrite fmap_cons in Hnd. apply NoDup_cons in Hnd as [Hx Hnd].
    apply elem_of_cons in Ha as [-> | Ha]; apply elem_of_cons in Hb as [-> | Hb].
    + reflexivity.
    + exfalso. apply Hx. rewrite Heq. by apply list_elem_of_fmap_2.
    + exfalso. apply Hx. rewrite <- Heq. by apply list_elem_of_fmap_2.
    + by apply IH.
Qed.

(** ** Calls *)

Lemma invoke_setter (self : layer) (name : string) (f : layer -> value -> layer) (v : value) :
  resolve (ob_class self) name = Some (Setter f) ->
  invoke self name [v] = Ok (RNone, f self v).
Proof. intros H. unfold invoke. by rewrite H. Qed.

Lemma invoke_getter (self : layer) (name : string) (f : layer -> result value) :
  resolve (ob_class self) name = Some (Getter f) ->
  invoke self name [] = (v ← f self; Ok (RValue v, self)).
Proof. intros H. unfold invoke. by rewrite H. Qed.

Lemma setter_has_getter (c : class) (a : string) :
  a ∈ setter_stems c -> a ∈ getter_stems c.
Proof.
  destruct (stems_same c) as (-> & -> & _). intros H.
  set (l := setter_stems CPlaneLayer) in H. vm_compute in l. subst l.
  each_member H; apply (bool_decide_unpack _); vm_compute; reflexivity.
Qed.

(** ** Round trip and frame *)

(** The accessor pairs of the module, the same for the four classes. *)
Lemma paired_stems_listing (c : class) :
  paired_stems c =
  [ "line_color"; "label"; "line_width"; "line_style"; "capstyle";
    "pole_style"; "pole_size"; "pole_fill"; "pole_edge_color";
    "pole_edge_width"; "marker_style"; "marker_size"; "marker_fill";
    "marker_edge_width"; "marker_edge_color"; "line_alpha"; "marker_alpha";
    "render_gcircles"; "render_poles"; "render_linears";
    "draw_contour_fills"; "draw_contour_lines"; "draw_contour_labels";
    "render_pole_contours"; "render_line_contours"; "rose_spacing";
    "rose_bottom"; "colormap"; "contour_resolution"; "contour_method";
    "contour_line_width"; "contour_line_color"; "contour_sigma";
    "contour_line_style"; "contour_label_size"; "use_line_color";
    "draw_hoeppener"; "draw_lp_plane" ] /\
  setter_stems c = paired_stems c.
Proof. destruct c; vm_compute; split; reflexivity. Qed.

(** C1: for every attribute with a getter/setter pair ([get_X] and
    [set_X] both defined), on a layer of any class and in any state, and
    for every value [v]: the call [set_X(v)] returns normally and the call
    [get_X()] that follows returns exactly [v]. *)
Theorem set_then_get (self : layer) (a : string) (v : value) :
  a ∈ paired_stems (ob_class self) ->
  exists self',
    invoke self ("set_" ++ a) [v] = Ok (RNone, self') /\
    invoke self' ("get_" ++ a) [] = Ok (RValue v, self').
Proof.
  intros H. apply paired_is_both in H as [Hg Hs].
  exists (setattr self (attribute_of a) v). split.
  - by rewrite (invoke_setter _ _ _ _ (setter_resolves _ _ Hs)).
  - rewrite (invoke_getter (setattr self (attribute_of a) v) _ _ (getter_resolves _ _ Hg)).
    by rewrite getattr_setattr_eq.
Qed.

(** C2: a call [set_X(v)] on any layer changes nothing but the attribute
    behind [X]: the class is the same, every other entry of the
    attribute dictionary is the same, and every getter [get_Y] of another
    attribute (the kind, the label, the store, the view and all styling
    attributes among them) returns what it returned before. *)
Theorem setter_frame (self : layer) (a : string) (v : value) :
  a ∈ setter_stems (ob_class self) ->
  exists self',
    invoke self ("set_" ++ a) [v] = Ok (RNone, self') /\
    ob_class self' = ob_class self /\
    (forall k : string, k ≠ attribute_of a -> ob_dict self' !! k = ob_dict self !! k) /\
    (forall b : string, b ∈ getter_stems (ob_class self) -> b ≠ a ->
       fst <$> invoke self' ("get_" ++ b) [] = fst <$> invoke self ("get_" ++ b) []).
Proof.
  intros Hs. exists (setattr self (attribute_of a) v). repeat split.
  - by rewrite (invoke_setter _ _ _ _ (setter_resolves _ _ Hs)).
  - intros k Hk. by apply dict_setattr_ne.
  - intros b Hb Hne.
    rewrite (invoke_getter (setattr self (attribute_of a) v) _ _ (getter_resolves _ _ Hb)).
    rewrite (invoke_getter self _ _ (getter_resolves _ _ Hb)).
    rewrite getattr_setattr_ne.
    + by destruct (getattr self (attribute_of b)).
    + apply (attribute_of_distinct (ob_class self)); auto using setter_has_getter.
Qed.

(** ** Which accessors exist *)

(** C3: the getters without a setter are those of the store, the view
    and the kind, and also that of the pole alpha: the class body defines
    [get_pole_alpha] but no [set_pole_alpha], so calling it raises
    [AttributeError], while the two sibling alpha attributes have their
    setters. *)
Theorem pole_alpha_has_no_setter (c : class) :
  getter_only_stems c = ["data_treestore"; "data_treeview"; "layer_type"; "pole_alpha"] /\
  resolve c "get_pole_alpha" = Some (Getter get_pole_alpha) /\
  resolve c "set_pole_alpha" = None /\
  (forall (self : layer) (v : value),
     invoke self "set_pole_alpha" [v] = Raise AttributeError) /\
  resolve c "set_line_alpha" = Some (Setter set_line_alpha) /\
  resolve c "set_marker_alpha" = Some (Setter set_marker_alpha).
Proof.
  assert (Hnone : forall k, resolve k "set_pole_alpha" = None) by (by intros []).
  repeat split; try (by destruct c).
  intros self v. unfold invoke. by rewrite Hnone.
Qed.

(** ** Construction *)

Lemma returns_stored (self : layer) (a : string) (v : value) :
  a ∈ getter_stems (ob_class self) ->
  ob_dict self !! attribute_of a = Some v ->
  returns self ("get_" ++ a) v.
Proof.
  intros Ha Hv. unfold returns.
  rewrite (invoke_getter self _ _ (getter_resolves _ _ Ha)).
  unfold getattr. by rewrite Hv.
Qed.

(** A getter's answer on a layer given by its construction. *)
Ltac by_lookup :=
  match goal with
  | |- returns ?self ?g ?v =>
      let a := eval vm_compute in (substring 4 (String.length g - 4) g) in
      apply (returns_stored self a v);
      [ apply (bool_decide_unpack _); vm_compute; reflexivity
      | vm_compute; reflexivity ]
  end.

(** C4: a freshly constructed layer of any of the four classes answers
    every getter of a styling attribute with the default that
    [PlaneLayer.__init__] assigns; the two sizes are the float [8.0], that
    is the number 8.  The Hoeppener toggle is off for a [FaultPlaneLayer]
    as for every other class. *)
Theorem fresh_layer_defaults (c : class) (treestore treeview : value) :
  exists self,
    construct c [treestore; treeview] = Ok self /\
    returns self "get_render_gcircles" (VBool true) /\
    returns self "get_line_color" (VStr "#0000ff") /\
    returns self "get_line_width" (VFloat (float_of_Z 1)) /\
    returns self "get_line_style" (VStr "-") /\
    returns self "get_line_alpha" (VFloat (float_of_Z 1)) /\
    returns self "get_capstyle" (VStr "butt") /\
    returns self "get_render_poles" (VBool false) /\
    returns self "get_pole_style" (VStr "o") /\
    returns self "get_pole_size" (VFloat (float_of_Z 8)) /\
    returns self "get_pole_fill" (VStr "#ff7e00") /\
    returns self "get_pole_edge_color" (VStr "#000000") /\
    returns self "get_pole_edge_width" (VFloat (float_of_Z 1)) /\
    returns self "get_pole_alpha" (VFloat (float_of_Z 1)) /\
    returns self "get_render_linears" (VBool true) /\
    returns self "get_marker_style" (VStr "o") /\
    returns self "get_marker_size" (VFloat (float_of_Z 8)) /\
    returns self "get_marker_fill" (VStr "#1283eb") /\
    returns self "get_marker_edge_color" (VStr "#000000") /\
    returns self "get_marker_edge_width" (VFloat (float_of_Z 1)) /\
    returns self "get_marker_alpha" (VFloat (float_of_Z 1)) /\
    returns self "get_rose_spacing" (VInt 10) /\
    returns self "get_rose_bottom" (VInt 0) /\
    returns self "get_draw_hoeppener" (VBool false) /\
    returns self "get_draw_lp_plane" (VBool false) /\
    returns self "get_draw_contour_fills" (VBool false) /\
    returns self "get_draw_contour_lines" (VBool false) /\
    returns self "get_draw_contour_labels" (VBool false) /\
    returns self "get_render_pole_contours" (VBool false) /\
    returns self "get_render_line_contours" (VBool true) /\
    returns self "get_colormap" (VStr "Blues") /\
    returns self "get_contour_resolution" (VInt 40) /\
    returns self "get_contour_method" (VStr "exponential_kamb") /\
    returns self "get_contour_sigma" (VInt 2) /\
    returns self "get_contour_line_color" (VStr "#000000") /\
    returns self "get_use_line_color" (VBool true) /\
    returns self "get_contour_line_width" (VInt 1) /\
    returns self "get_contour_line_style" (VStr "-") /\
    returns self "get_contour_label_size" (VInt 12) /\
    (exists v, returns self "get_pole_size" v /\ integral_value v = Some 8) /\
    (exists v, returns self "get_marker_size" v /\ integral_value v = Some 8).
Proof.
  eexists. split; [reflexivity |].
  destruct c; repeat split; try by_lookup;
    (eexists; split; [by_lookup | reflexivity]).
Qed.

(** C6: right after construction the label is the one its class
    assigns: "Plane layer", "Faultplane layer", "Linear layer" and
    "Small circle layer". *)
Theorem fresh_layer_label (treestore treeview : value) :
  (exists self, construct CPlaneLayer [treestore; treeview] = Ok self /\
                returns self "get_label" (VStr "Plane layer")) /\
  (exists self, construct CFaultPlaneLayer [treestore; treeview] = Ok self /\
                returns self "get_label" (VStr "Faultplane layer")) /\
  (exists self, construct CLineLayer [treestore; treeview] = Ok self /\
                returns self "get_label" (VStr "Linear layer")) /\
  (exists self, construct CSmallCircleLayer [treestore; treeview] = Ok self /\
                returns self "get_label" (VStr "Small circle layer")).
Proof.
  repeat split; (eexists; split; [reflexivity | by_lookup]).
Qed.

(** ** The kind *)

(** Walks the body of [PlaneLayer] for the method bound to a name. *)
Ltac scan_table H :=
  repeat lazymatch type of H with
  | (if String.eqb ?n ?name then _ else _) = _ =>
      destruct (String.eqb n name);
      [ first [ discriminate H | injection H as <- ] | ]
  end.

Lemma setter_keeps_type (c : class) (name : string) (f : layer -> value -> layer) :
  resolve c name = Some (Setter f) ->
  forall (self : layer) (v : value),
    ob_class (f self v) = ob_class self /\
    ob_dict (f self v) !! "type" = ob_dict self !! "type".
Proof.
  intros H. destruct (decide (name = "get_pixbuf")) as [-> | Hne].
  - rewrite resolve_get_pixbuf in H. discriminate.
  - rewrite resolve_base in H by done.
    unfold PlaneLayer_methods in H. cbn [assoc] in H.
    scan_table H; try discriminate H;
      (intros self v; split; [reflexivity | by apply dict_setattr_ne]).
Qed.

Lemma invoke_keeps_type (self self' : layer) (name : string) (args : list value) (r : retval) :
  invoke self name args = Ok (r, self') ->
  ob_class self' = ob_class self /\ ob_dict self' !! "type" = ob_dict self !! "type".
Proof.
  unfold invoke. destruct (resolve (ob_class self) name) as [[f | f | f | f] |] eqn:E;
    [ | | | | discriminate ];
    destruct args as [| v [| w args]]; try discriminate.
  - destruct (f self); simpl; [| discriminate]. by intros [= _ <-].
  - intros [= _ <-]. by apply (setter_keeps_type _ _ _ E).
  - destruct (f self); simpl; [| discriminate]. by intros [= _ <-].
  - destruct (f self); simpl; [| discriminate]. by intros [= _ <-].
Qed.

Lemma run_calls_keeps_type (calls : list (string * list value)) (self : layer) :
  ob_class (run_calls calls self) = ob_class self /\
  ob_dict (run_calls calls self) !! "type" = ob_dict self !! "type".
Proof.
  revert self. induction calls as [| call calls IH]; intros self; [done |].
  unfold run_calls in *. simpl. destruct (IH (call_then self call)) as [-> ->].
  unfold call_then. destruct (invoke self call.1 call.2) as [[r self'] | e] eqn:E; [| done].
  by apply invoke_keeps_type in E.
Qed.

(** C5: a freshly constructed layer answers [get_layer_type] with the tag
    of its class ("plane", "faultplane", "line", "smallcircle"); no class
    has a setter for it; and it answers the same after any sequence of
    method calls, setter calls with any arguments among them. *)
Theorem kind_is_fixed (c : class) (treestore treeview : value)
    (calls : list (string * list value)) :
  exists self,
    construct c [treestore; treeview] = Ok self /\
    returns self "get_layer_type" (VStr (kind_tag c)) /\
    ("layer_type" ∉ setter_stems c) /\
    resolve c "set_layer_type" = None /\
    returns (run_calls calls self) "get_layer_type" (VStr (kind_tag c)).
Proof.
  eexists. split; [reflexivity |].
  assert (Hfresh : ob_dict (init_of c (blank c) treestore treeview) !! "type"
                   = Some (VStr (kind_tag c))) by (destruct c; vm_compute; reflexivity).
  assert (Hclass : ob_class (init_of c (blank c) treestore treeview) = c) by (by destruct c).
  assert (Hstem : "layer_type" ∈ getter_stems c)
    by (destruct c; apply (bool_decide_unpack _); vm_compute; reflexivity).
  repeat split.
  - apply (returns_stored _ "layer_type"); [by rewrite Hclass | exact Hfresh].
  - destruct c; apply (bool_decide_unpack _); vm_compute; reflexivity.
  - by destruct c.
  - destruct (run_calls_keeps_type calls (init_of c (blank c) treestore treeview)) as [Hc Hd].
    apply (returns_stored _ "layer_type"); [by rewrite Hc, Hclass |].
    change (attribute_of "layer_type") with "type". by rewrite Hd.
Qed.

(** ** Derived colours *)

Lemma invoke_pixbuf (self : layer) (f : layer -> result GdkPixbuf.Pixbuf) (p : GdkPixbuf.Pixbuf) :
  resolve (ob_class self) "get_pixbuf" = Some (PixbufGetter f) ->
  f self = Ok p ->
  invoke self "get_pixbuf" [] = Ok (RPixbuf p, self).
Proof. intros H Hp. unfold invoke. by rewrite H, Hp. Qed.

Lemma invoke_get_rgba (self : layer) :
  invoke self "get_rgba" [] = (c ← get_rgba self; Ok (RColor c, self)).
Proof.
  unfold invoke. rewrite resolve_base by discriminate. reflexivity.
Qed.

(** C7: the swatch of a fresh [PlaneLayer] is filled with its line
    colour "#0000ff" at full opacity, bytes (0, 0, 255, 255); so are those
    of a fresh [FaultPlaneLayer] and [SmallCircleLayer], which inherit
    [get_pixbuf]; the swatch of a fresh [LineLayer] is filled with its
    marker fill "#1283eb", bytes (18, 131, 235, 255), and not with its line
    colour, which is "#0000ff" as well. *)
Theorem preview_swatch (treestore treeview : value) :
  (exists self, construct CPlaneLayer [treestore; treeview] = Ok self /\
     returns self "get_line_color" (VStr "#0000ff") /\
     swatch self (0, 0, 255, 255)) /\
  (exists self, construct CFaultPlaneLayer [treestore; treeview] = Ok self /\
     returns self "get_line_color" (VStr "#0000ff") /\
     swatch self (0, 0, 255, 255)) /\
  (exists self, construct CSmallCircleLayer [treestore; treeview] = Ok self /\
     returns self "get_line_color" (VStr "#0000ff") /\
     swatch self (0, 0, 255, 255)) /\
  (exists self, construct CLineLayer [treestore; treeview] = Ok self /\
     returns self "get_line_color" (VStr "#0000ff") /\
     returns self "get_marker_fill" (VStr "#1283eb") /\
     swatch self (18, 131, 235, 255)) /\
  resolve CFaultPlaneLayer "get_pixbuf" = Some (PixbufGetter get_pixbuf) /\
  resolve CSmallCircleLayer "get_pixbuf" = Some (PixbufGetter get_pixbuf) /\
  resolve CLineLayer "get_pixbuf" = Some (PixbufGetter LineLayer_get_pixbuf).
Proof.
  repeat split;
    try (eexists; split; [reflexivity |]; repeat split; try by_lookup;
         eexists; split;
         [ eapply invoke_pixbuf; [reflexivity | vm_compute; reflexivity]
         | repeat split ]).
Qed.

(** C8: on any layer whose stored line colour is "#ff7e00",
    [get_rgba] returns the [Gdk.Color] with channels 65535, 32382 and 0,
    whose leading bytes are (255, 126, 0); a [Gdk.Color] has no alpha
    channel; the call leaves the layer as it was, and its result depends on
    nothing but the stored string. *)
Theorem line_rgba_of_hex_triplet (self : layer) :
  getattr self "line_color" = Ok (VStr "#ff7e00") ->
  invoke self "get_rgba" [] = Ok (RColor (Gdk.Color.mk 65535 32382 0), self) /\
  Gdk.Color.to_bytes (Gdk.Color.mk 65535 32382 0) = (255, 126, 0) /\
  (forall other : layer,
     getattr other "line_color" = getattr self "line_color" ->
     get_rgba other = get_rgba self).
Proof.
  intros H. repeat split.
  - rewrite invoke_get_rgba. unfold get_rgba. rewrite H. reflexivity.
  - intros other Ho. unfold get_rgba. by rewrite Ho.
Qed.

Lemma parse_rejected (rgba : Gdk.RGBA.t) (s : string) :
  fst <$> Gdk.RGBA.parse named_color rgba (VStr s) = Ok false ->
  Gdk.RGBA.parse named_color rgba (VStr s) = Ok (false, rgba).
Proof.
  unfold Gdk.RGBA.parse.
  destruct (match list_ascii_of_string s with
            | "#"%char :: digits => Gdk.RGBA.of_channels <$> Gdk.RGBA.parse_hash digits
            | _ => named_color s
            end); simpl; [discriminate | reflexivity].
Qed.

(** C9 as the code has it: [set_line_color] stores any string without
    raising, and when the string is one that [Gdk.RGBA.parse] rejects, the
    [get_rgba] that follows does not raise either: the outcome of the parse
    is not looked at, and the white of the new [Gdk.RGBA] is returned. *)
Theorem rejected_line_color_reads_white (self : layer) (s : string) :
  fst <$> Gdk.RGBA.parse named_color Gdk.RGBA.new (VStr s) = Ok false ->
  exists self',
    invoke self "set_line_color" [VStr s] = Ok (RNone, self') /\
    returns self' "get_line_color" (VStr s) /\
    invoke self' "get_rgba" [] = Ok (RColor white, self').
Proof.
  intros H. apply parse_rejected in H.
  exists (set_line_color self (VStr s)). repeat split.
  - apply invoke_setter. rewrite resolve_base by discriminate. reflexivity.
  - unfold returns. erewrite invoke_getter
      by (rewrite resolve_base by discriminate; reflexivity).
    unfold get_line_color, set_line_color. by rewrite getattr_setattr_eq.
  - rewrite invoke_get_rgba. unfold get_rgba, set_line_color.
    rewrite getattr_setattr_eq. unfold mbind, result_bind. rewrite H. reflexivity.
Qed.

(** C10 as the code has it: construction with two arguments succeeds
    whatever they are, [None] included; the layer holds them as given and
    hands them back through [get_data_treestore] and [get_data_treeview]. *)
Theorem construction_takes_any_handles (c : class) (treestore treeview : value) :
  exists self,
    construct c [treestore; treeview] = Ok self /\
    ob_class self = c /\
    returns self "get_data_treestore" treestore /\
    returns self "get_data_treeview" treeview.
Proof.
  eexists. split; [reflexivity |].
  destruct c; repeat split; by_lookup.
Qed.

(** ** Setters as dictionary updates *)


Lemma setattr_commute (self : layer) (a b : string) (v w : value) :
  a ≠ b ->
  setattr (setattr self a v) b w = setattr (setattr self b w) a v.
Proof.
  intros Hne. unfold setattr; simpl. f_equal. by apply insert_insert_ne.
Qed.

Lemma setattr_twice (self : layer) (a : string) (v w : value) :
  setattr (setattr self a v) a w = setattr self a w.
Proof. unfold setattr; simpl. f_equal. apply insert_insert_eq. Qed.

Lemma setattr_same (self : layer) (a : string) (v : value) :
  getattr self a = Ok v -> setattr self a v = self.
Proof.
  unfold getattr, setattr. destruct self as [c d]; simpl.
  destruct (d !! a) as [x |] eqn:E; [| discriminate].
  intros [= ->]. f_equal. by apply insert_id.
Qed.

(** X1: two setters of different attributes commute: called in either
    order on any layer, with any two values, they leave the same layer. *)
Theorem setters_commute (self : layer) (a b : string) (v w : value) :
  a ∈ setter_stems (ob_class self) ->
  b ∈ setter_stems (ob_class self) ->
  a ≠ b ->
  exists final : layer,
    (r ← invoke self ("set_" ++ a) [v]; invoke (snd r) ("set_" ++ b) [w])
      = Ok (RNone, final) /\
    (r ← invoke self ("set_" ++ b) [w]; invoke (snd r) ("set_" ++ a) [v])
      = Ok (RNone, final).
Proof.
  intros Ha Hb Hne.
  exists (setattr (setattr self (attribute_of a) v) (attribute_of b) w).
  assert (Hd : attribute_of a ≠ attribute_of b)
    by (apply (attribute_of_distinct (ob_class self)); auto using setter_has_getter).
  split.
  - rewrite (invoke_setter _ _ _ _ (setter_resolves _ _ Ha)). simpl.
    by rewrite (invoke_setter (setattr self (attribute_of a) v) _ _ _
                  (setter_resolves _ _ Hb)).
  - rewrite (invoke_setter _ _ _ _ (setter_resolves _ _ Hb)). simpl.
    rewrite (invoke_setter (setattr self (attribute_of b) w) _ _ _
               (setter_resolves _ _ Ha)).
    by rewrite setattr_commute.
Qed.

(** X2: the last value set is the one kept: [set_X(v)] followed by
    [set_X(w)] leaves the layer that [set_X(w)] alone leaves. *)
Theorem last_set_wins (self : layer) (a : string) (v w : value) :
  a ∈ setter_stems (ob_class self) ->
  (r ← invoke self ("set_" ++ a) [v]; invoke (snd r) ("set_" ++ a) [w])
  = invoke self ("set_" ++ a) [w].
Proof.
  intros Ha.
  rewrite !(invoke_setter self _ _ _ (setter_resolves _ _ Ha)). simpl.
  rewrite (invoke_setter (setattr self (attribute_of a) v) _ _ _
             (setter_resolves _ _ Ha)).
  by rewrite setattr_twice.
Qed.

(** X3: writing back what the getter returned changes nothing: when
    [get_X()] returns [v], the call [set_X(v)] leaves the layer as it is. *)
Theorem set_what_get_returned (self : layer) (a : string) (v : value) :
  a ∈ paired_stems (ob_class self) ->
  returns self ("get_" ++ a) v ->
  invoke self ("set_" ++ a) [v] = Ok (RNone, self).
Proof.
  intros H Hv. apply paired_is_both in H as [Hg Hs].
  unfold returns in Hv. rewrite (invoke_getter _ _ _ (getter_resolves _ _ Hg)) in Hv.
  rewrite (invoke_setter _ _ _ _ (setter_resolves _ _ Hs)).
  destruct (getattr self (attribute_of a)) as [x |] eqn:E; [| discriminate Hv].
  simpl in Hv. injection Hv as ->. by rewrite (setattr_same _ _ _ E).
Qed.

(** ** Layers in use *)












(** ** Hexadecimal colours *)

Lemma hex_digit_range (c : ascii) (d : Z) :
  hex_digit c = Some d -> 0 <= d < 16.
Proof.
  unfold hex_digit.
  destruct ((48 <=? code c) && (code c <=? 57)) eqn:E1;
    [| destruct ((97 <=? code c) && (code c <=? 102)) eqn:E2;
       [| destruct ((65 <=? code c) && (code c <=? 70)) eqn:E3; [| discriminate]]];
    intros [= <-];
    match goal with E : _ && _ = true |- _ => apply andb_prop in E as [?%Z.leb_le ?%Z.leb_le] end;
    lia.
Qed.

Lemma hex_digit_no_underscore (c : ascii) (d : Z) :
  hex_digit c = Some d -> (code c =? 95) = false.
Proof.
  unfold hex_digit. intros H. apply Z.eqb_neq. intros E. rewrite E in H.
  discriminate H.
Qed.

(** The sixteen values of a digit. *)
Ltac each_digit d :=
  let H := fresh in
  assert (H : d = 0 \/ d = 1 \/ d = 2 \/ d = 3 \/ d = 4 \/ d = 5 \/ d = 6 \/ d = 7 \/
              d = 8 \/ d = 9 \/ d = 10 \/ d = 11 \/ d = 12 \/ d = 13 \/ d = 14 \/ d = 15)
    by lia;
  repeat (destruct H as [-> | H]); [ .. | subst d ].

(** Two digits make a byte; widened to 16 bits it is 257 times the
    byte, which survives the passage through [Gdk.RGBA]'s doubles and
    leads the channel it came from. *)
Lemma byte_channel (d1 d2 : Z) :
  0 <= d1 < 16 -> 0 <= d2 < 16 ->
  Z.lor (Z.shiftl (Z.lor (Z.shiftl 0 4) d1) 4) d2 = byte_of d1 d2 /\
  Gdk.RGBA.scale16 2 (byte_of d1 d2) = 257 * byte_of d1 d2 /\
  int_of_float (float_mul (float_div (float_of_Z (257 * byte_of d1 d2)) (float_of_Z 65535))
                  (float_of_Z Gdk.Color.MAX_VALUE)) = Ok (257 * byte_of d1 d2) /\
  Gdk.Color.in_range (257 * byte_of d1 d2) = true /\
  Z.shiftr (257 * byte_of d1 d2) 8 = byte_of d1 d2.
Proof.
  intros H1 H2. each_digit d1; each_digit d2; vm_compute; auto.
Qed.

(** One digit widened to 16 bits is 4369 times the digit. *)
Lemma digit_channel (d : Z) :
  0 <= d < 16 ->
  Z.lor (Z.shiftl 0 4) d = d /\
  Gdk.RGBA.scale16 1 d = 4369 * d /\
  int_of_float (float_mul (float_div (float_of_Z (4369 * d)) (float_of_Z 65535))
                  (float_of_Z Gdk.Color.MAX_VALUE)) = Ok (4369 * d) /\
  Gdk.Color.in_range (4369 * d) = true /\
  Z.shiftr (4369 * d) 8 = 17 * d.
Proof.
  intros H. each_digit d; vm_compute; auto.
Qed.

Lemma to_color_of_channels (r g b : Z) :
  int_of_float (float_mul (float_div (float_of_Z r) (float_of_Z 65535))
                  (float_of_Z Gdk.Color.MAX_VALUE)) = Ok r ->
  int_of_float (float_mul (float_div (float_of_Z g) (float_of_Z 65535))
                  (float_of_Z Gdk.Color.MAX_VALUE)) = Ok g ->
  int_of_float (float_mul (float_div (float_of_Z b) (float_of_Z 65535))
                  (float_of_Z Gdk.Color.MAX_VALUE)) = Ok b ->
  Gdk.Color.in_range r = true -> Gdk.Color.in_range g = true ->
  Gdk.Color.in_range b = true ->
  Gdk.RGBA.to_color (Gdk.RGBA.of_channels (r, g, b)) = Ok (Gdk.Color.mk r g b).
Proof.
  intros Hr Hg Hb Ir Ig Ib.
  unfold Gdk.RGBA.to_color, Gdk.RGBA.of_channels; cbn [Gdk.RGBA.red Gdk.RGBA.green Gdk.RGBA.blue].
  rewrite Hr, Hg, Hb. unfold mbind, result_bind, Gdk.Color.new.
  by rewrite Ir, Ig, Ib.
Qed.

Lemma parse_hash_six (c1 c2 c3 c4 c5 c6 : ascii) (d1 d2 d3 d4 d5 d6 : Z) :
  hex_digit c1 = Some d1 -> hex_digit c2 = Some d2 -> hex_digit c3 = Some d3 ->
  hex_digit c4 = Some d4 -> hex_digit c5 = Some d5 -> hex_digit c6 = Some d6 ->
  Gdk.RGBA.parse_hash [c1; c2; c3; c4; c5; c6]
  = Some (257 * byte_of d1 d2, 257 * byte_of d3 d4, 257 * byte_of d5 d6).
Proof.
  intros H1 H2 H3 H4 H5 H6.
  destruct (byte_channel d1 d2) as (E12 & S12 & _); eauto using hex_digit_range.
  destruct (byte_channel d3 d4) as (E34 & S34 & _); eauto using hex_digit_range.
  destruct (byte_channel d5 d6) as (E56 & S56 & _); eauto using hex_digit_range.
  unfold Gdk.RGBA.parse_hash.
  cbn [length Nat.eqb orb Nat.div Nat.divmod fst Gdk.RGBA.hex].
  rewrite H1, H2, E12. cbn [Gdk.RGBA.hex].
  rewrite H3, H4, E34. cbn [Gdk.RGBA.hex].
  rewrite H5, H6, E56.
  by rewrite S12, S34, S56.
Qed.

Lemma parse_hash_three (c1 c2 c3 : ascii) (d1 d2 d3 : Z) :
  hex_digit c1 = Some d1 -> hex_digit c2 = Some d2 -> hex_digit c3 = Some d3 ->
  Gdk.RGBA.parse_hash [c1; c2; c3] = Some (4369 * d1, 4369 * d2, 4369 * d3).
Proof.
  intros H1 H2 H3.
  destruct (digit_channel d1) as (E1 & S1 & _); eauto using hex_digit_range.
  destruct (digit_channel d2) as (E2 & S2 & _); eauto using hex_digit_range.
  destruct (digit_channel d3) as (E3 & S3 & _); eauto using hex_digit_range.
  unfold Gdk.RGBA.parse_hash.
  cbn [length Nat.eqb orb Nat.div Nat.divmod fst Gdk.RGBA.hex].
  rewrite H1, E1. cbn [Gdk.RGBA.hex].
  rewrite H2, E2. cbn [Gdk.RGBA.hex].
  rewrite H3, E3.
  by rewrite S1, S2, S3.
Qed.

Lemma invoke_color (self : layer) (name : string) (f : layer -> result Gdk.Color.t)
    (col : Gdk.Color.t) :
  resolve (ob_class self) name = Some (ColorGetter f) ->
  f self = Ok col ->
  invoke self name [] = Ok (RColor col, self).
Proof. intros H Hc. unfold invoke. by rewrite H, Hc. Qed.

(** What each of the six colour getters does with its attribute. *)
Lemma resolve_rgba_getter (c : class) (g attr : string) :
  (g, attr) ∈ rgba_getters ->
  resolve c g = Some (ColorGetter (fun self =>
    let rgba := Gdk.RGBA.new in
    x ← getattr self attr;
    parsed ← Gdk.RGBA.parse named_color rgba x;
    Gdk.RGBA.to_color (snd parsed))).
Proof.
  intros H. unfold rgba_getters in H.
  repeat (apply elem_of_cons in H as [E | H]; [injection E as -> -> |]);
    try (by apply elem_of_nil in H);
    rewrite resolve_base by discriminate; reflexivity.
Qed.

Lemma rgba_getter_reads (self : layer) (g attr : string) (s : string) :
  (g, attr) ∈ rgba_getters ->
  getattr self attr = Ok (VStr s) ->
  invoke self g [] =
  (parsed ← Gdk.RGBA.parse named_color Gdk.RGBA.new (VStr s);
   col ← Gdk.RGBA.to_color (snd parsed);
   Ok (RColor col, self)).
Proof.
  intros H Hattr. unfold invoke. rewrite (resolve_rgba_getter _ _ _ H).
  cbv zeta. rewrite Hattr. unfold mbind, result_bind.
  destruct (Gdk.RGBA.parse named_color Gdk.RGBA.new (VStr s)) as [parsed |]; [| done].
  by destruct (Gdk.RGBA.to_color parsed.2).
Qed.

(** What the toolkit makes of "#RRGGBB" and of "#RGB". *)
Lemma color_of_hex_triplet (c1 c2 c3 c4 c5 c6 : ascii) (d1 d2 d3 d4 d5 d6 : Z) :
  hex_digit c1 = Some d1 -> hex_digit c2 = Some d2 -> hex_digit c3 = Some d3 ->
  hex_digit c4 = Some d4 -> hex_digit c5 = Some d5 -> hex_digit c6 = Some d6 ->
  (parsed ← Gdk.RGBA.parse named_color Gdk.RGBA.new
              (VStr (string_of ["#"%char; c1; c2; c3; c4; c5; c6]));
   Gdk.RGBA.to_color (snd parsed))
  = Ok (Gdk.Color.mk (257 * byte_of d1 d2) (257 * byte_of d3 d4) (257 * byte_of d5 d6)).
Proof.
  intros H1 H2 H3 H4 H5 H6.
  destruct (byte_channel d1 d2) as (_ & _ & F12 & I12 & _); eauto using hex_digit_range.
  destruct (byte_channel d3 d4) as (_ & _ & F34 & I34 & _); eauto using hex_digit_range.
  destruct (byte_channel d5 d6) as (_ & _ & F56 & I56 & _); eauto using hex_digit_range.
  unfold Gdk.RGBA.parse, string_of.
  cbn [string_of_list_ascii list_ascii_of_string].
  rewrite (parse_hash_six _ _ _ _ _ _ _ _ _ _ _ _ H1 H2 H3 H4 H5 H6).
  cbn [fmap option_fmap option_map mbind result_bind snd].
  by rewrite to_color_of_channels.
Qed.

Lemma color_of_short_hex (c1 c2 c3 : ascii) (d1 d2 d3 : Z) :
  hex_digit c1 = Some d1 -> hex_digit c2 = Some d2 -> hex_digit c3 = Some d3 ->
  (parsed ← Gdk.RGBA.parse named_color Gdk.RGBA.new (VStr (string_of ["#"%char; c1; c2; c3]));
   Gdk.RGBA.to_color (snd parsed))
  = Ok (Gdk.Color.mk (4369 * d1) (4369 * d2) (4369 * d3)).
Proof.
  intros H1 H2 H3.
  destruct (digit_channel d1) as (_ & _ & F1 & I1 & _); eauto using hex_digit_range.
  destruct (digit_channel d2) as (_ & _ & F2 & I2 & _); eauto using hex_digit_range.
  destruct (digit_channel d3) as (_ & _ & F3 & I3 & _); eauto using hex_digit_range.
  unfold Gdk.RGBA.parse, string_of.
  cbn [string_of_list_ascii list_ascii_of_string].
  rewrite (parse_hash_three _ _ _ _ _ _ H1 H2 H3).
  cbn [fmap option_fmap option_map mbind result_bind snd].
  by rewrite to_color_of_channels.
Qed.

Lemma bind_assoc_color (self : layer) (r : result (bool * Gdk.RGBA.t)) :
  (parsed ← r; col ← Gdk.RGBA.to_color (snd parsed); Ok (RColor col, self))
  = (col ← (parsed ← r; Gdk.RGBA.to_color (snd parsed)); Ok (RColor col, self)).
Proof. by destruct r. Qed.

(** X7: each of the six colour getters decodes a "#RRGGBB" string
    found in its attribute exactly, whatever the digits and their case:
    every channel of the [Gdk.Color] is 257 times the byte written, and its
    leading byte is that byte. *)
Theorem hex_triplet_is_decoded (self : layer) (g attr : string)
    (c1 c2 c3 c4 c5 c6 : ascii) (d1 d2 d3 d4 d5 d6 : Z) :
  (g, attr) ∈ rgba_getters ->
  hex_digit c1 = Some d1 -> hex_digit c2 = Some d2 -> hex_digit c3 = Some d3 ->
  hex_digit c4 = Some d4 -> hex_digit c5 = Some d5 -> hex_digit c6 = Some d6 ->
  getattr self attr = Ok (VStr (string_of ["#"%char; c1; c2; c3; c4; c5; c6])) ->
  invoke self g [] =
    Ok (RColor (Gdk.Color.mk (257 * byte_of d1 d2) (257 * byte_of d3 d4)
                  (257 * byte_of d5 d6)), self) /\
  Gdk.Color.to_bytes (Gdk.Color.mk (257 * byte_of d1 d2) (257 * byte_of d3 d4)
                        (257 * byte_of d5 d6))
  = (byte_of d1 d2, byte_of d3 d4, byte_of d5 d6).
Proof.
  intros Hg H1 H2 H3 H4 H5 H6 Hattr.
  destruct (byte_channel d1 d2) as (_ & _ & _ & _ & B12); eauto using hex_digit_range.
  destruct (byte_channel d3 d4) as (_ & _ & _ & _ & B34); eauto using hex_digit_range.
  destruct (byte_channel d5 d6) as (_ & _ & _ & _ & B56); eauto using hex_digit_range.
  split.
  - rewrite (rgba_getter_reads _ _ _ _ Hg Hattr), bind_assoc_color.
    by rewrite (color_of_hex_triplet _ _ _ _ _ _ _ _ _ _ _ _ H1 H2 H3 H4 H5 H6).
  - unfold Gdk.Color.to_bytes; cbn [Gdk.Color.red Gdk.Color.green Gdk.Color.blue].
    by rewrite B12, B34, B56.
Qed.

(** ** The swatch *)

Lemma list_ascii_of_string_app (s t : string) :
  list_ascii_of_string (s ++ t) = (list_ascii_of_string s ++ list_ascii_of_string t)%list.
Proof. induction s as [| c s IH]; simpl; [done | by rewrite IH]. Qed.

Lemma lstrip_keeps (c : ascii) (cs : list ascii) :
  is_space c = false -> lstrip (c :: cs) = c :: cs.
Proof. intros H. simpl. by rewrite H. Qed.

Lemma strip_keeps (a z : ascii) (cs : list ascii) :
  is_space a = false -> is_space z = false ->
  strip (a :: cs ++ [z]) = a :: cs ++ [z].
Proof.
  intros Ha Hz. unfold strip. rewrite (lstrip_keeps a) by done.
  change (a :: cs ++ [z])%list with ((a :: cs) ++ [z])%list.
  rewrite rev_app_distr. cbn [rev app].
  rewrite (lstrip_keeps z) by done.
  change (z :: rev cs ++ [a])%list with ([z] ++ (rev cs ++ [a]))%list.
  rewrite rev_app_distr, rev_app_distr, rev_involutive. reflexivity.
Qed.

(** The number [get_pixbuf] computes from the tail of the colour
    string. *)
Lemma int_base16_0x_ff (tail : string) :
  int_base16 (format_0x_ff tail) =
  match hex_literal ("0"%char :: "x"%char :: list_ascii_of_string tail ++ ["f"%char; "f"%char]) with
  | Some n => Ok n
  | None => Raise ValueError
  end.
Proof.
  unfold int_base16, format_0x_ff.
  rewrite !list_ascii_of_string_app.
  change (list_ascii_of_string "0x") with ["0"%char; "x"%char].
  change (list_ascii_of_string "ff") with ["f"%char; "f"%char].
  assert (E : ("0"%char :: ("x"%char :: list_ascii_of_string tail ++ ["f"%char]) ++ ["f"%char]
               = ["0"%char; "x"%char] ++ list_ascii_of_string tail ++ ["f"%char; "f"%char])%list)
    by (simpl; by rewrite <- app_assoc).
  rewrite <- E, strip_keeps, E by reflexivity.
  reflexivity.
Qed.

Lemma hex_digits_step (c : ascii) (d acc : Z) (b : bool) (rest : list ascii) :
  hex_digit c = Some d ->
  hex_digits acc b (c :: rest) = hex_digits (16 * acc + d) true rest.
Proof.
  intros H. cbn [hex_digits]. by rewrite (hex_digit_no_underscore _ _ H), H.
Qed.


Lemma get_pixbuf_by_class (self : layer) :
  resolve (ob_class self) "get_pixbuf" =
  Some (PixbufGetter (fun self' =>
    x ← getattr self' (swatch_source (ob_class self));
    tail ← slice_from_1 x;
    n ← int_base16 (format_0x_ff tail);
    GdkPixbuf.fill (GdkPixbuf.new GdkPixbuf.RGB true 8 16 16) n)).
Proof. by destruct (ob_class self). Qed.

Lemma land_255 (x : Z) : Z.land x 255 = x mod 256.
Proof. change 255 with (Z.ones 8). by rewrite Z.land_ones. Qed.

Lemma unpack_six (d1 d2 d3 d4 d5 d6 : Z) :
  0 <= d1 < 16 -> 0 <= d2 < 16 -> 0 <= d3 < 16 ->
  0 <= d4 < 16 -> 0 <= d5 < 16 -> 0 <= d6 < 16 ->
  GdkPixbuf.fill (GdkPixbuf.new GdkPixbuf.RGB true 8 16 16)
    (16 * (16 * (16 * (16 * (16 * (16 * (16 * (16 * 0 + d1) + d2) + d3) + d4) + d5) + d6)
           + 15) + 15)
  = Ok (GdkPixbuf.mkPixbuf GdkPixbuf.RGB true 8 16 16
          (repeat (byte_of d1 d2, byte_of d3 d4, byte_of d5 d6, 255) 256)).
Proof.
  intros H1 H2 H3 H4 H5 H6. unfold GdkPixbuf.fill, byte_of.
  set (n := 16 * _ + 15).
  assert (Hn : n = 16777216 * (16 * d1 + d2) + 65536 * (16 * d3 + d4)
                   + 256 * (16 * d5 + d6) + 255) by (subst n; ring).
  assert (Hrange : (0 <=? n) && (n <? 2 ^ 32) = true).
  { apply andb_true_intro. split; [apply Z.leb_le | apply Z.ltb_lt]; lia. }
  rewrite Hrange. unfold GdkPixbuf.unpack.
  rewrite !land_255, !Z.shiftr_div_pow2 by lia.
  change (2 ^ 24) with 16777216. change (2 ^ 16) with 65536. change (2 ^ 8) with 256.
  assert (E1 : (n / 16777216) mod 256 = 16 * d1 + d2)
    by (rewrite Hn; Z.div_mod_to_equations; lia).
  assert (E2 : (n / 65536) mod 256 = 16 * d3 + d4)
    by (rewrite Hn; Z.div_mod_to_equations; lia).
  assert (E3 : (n / 256) mod 256 = 16 * d5 + d6)
    by (rewrite Hn; Z.div_mod_to_equations; lia).
  assert (E4 : n mod 256 = 255)
    by (rewrite Hn; Z.div_mod_to_equations; lia).
  rewrite E1, E2, E3, E4. reflexivity.
Qed.

Lemma unpack_three (d1 d2 d3 : Z) :
  0 <= d1 < 16 -> 0 <= d2 < 16 -> 0 <= d3 < 16 ->
  GdkPixbuf.fill (GdkPixbuf.new GdkPixbuf.RGB true 8 16 16)
    (16 * (16 * (16 * (16 * (16 * 0 + d1) + d2) + d3) + 15) + 15)
  = Ok (GdkPixbuf.mkPixbuf GdkPixbuf.RGB true 8 16 16
          (repeat (0, d1, byte_of d2 d3, 255) 256)).
Proof.
  intros H1 H2 H3. unfold GdkPixbuf.fill, byte_of.
  set (n := 16 * _ + 15).
  assert (Hn : n = 65536 * d1 + 256 * (16 * d2 + d3) + 255) by (subst n; ring).
  assert (Hrange : (0 <=? n) && (n <? 2 ^ 32) = true).
  { apply andb_true_intro. split; [apply Z.leb_le | apply Z.ltb_lt]; lia. }
  rewrite Hrange. unfold GdkPixbuf.unpack.
  rewrite !land_255, !Z.shiftr_div_pow2 by lia.
  change (2 ^ 24) with 16777216. change (2 ^ 16) with 65536. change (2 ^ 8) with 256.
  assert (E1 : (n / 16777216) mod 256 = 0)
    by (rewrite Hn; Z.div_mod_to_equations; lia).
  assert (E2 : (n / 65536) mod 256 = d1)
    by (rewrite Hn; Z.div_mod_to_equations; lia).
  assert (E3 : (n / 256) mod 256 = 16 * d2 + d3)
    by (rewrite Hn; Z.div_mod_to_equations; lia).
  assert (E4 : n mod 256 = 255)
    by (rewrite Hn; Z.div_mod_to_equations; lia).
  rewrite E1, E2, E3, E4. reflexivity.
Qed.

(** What [get_pixbuf] makes of a colour string of a character and six
    digits, and of a character and three digits. *)
Lemma pixbuf_of_hex_triplet (self : layer) (c0 c1 c2 c3 c4 c5 c6 : ascii)
    (d1 d2 d3 d4 d5 d6 : Z) :
  hex_digit c1 = Some d1 -> hex_digit c2 = Some d2 -> hex_digit c3 = Some d3 ->
  hex_digit c4 = Some d4 -> hex_digit c5 = Some d5 -> hex_digit c6 = Some d6 ->
  getattr self (swatch_source (ob_class self))
    = Ok (VStr (string_of [c0; c1; c2; c3; c4; c5; c6])) ->
  invoke self "get_pixbuf" [] =
  Ok (RPixbuf (GdkPixbuf.mkPixbuf GdkPixbuf.RGB true 8 16 16
                 (repeat (byte_of d1 d2, byte_of d3 d4, byte_of d5 d6, 255) 256)), self).
Proof.
  intros H1 H2 H3 H4 H5 H6 Hattr.
  eapply invoke_pixbuf; [apply get_pixbuf_by_class |].
  cbv beta. rewrite Hattr. unfold string_of.
  cbn [string_of_list_ascii slice_from_1 mbind result_bind].
  rewrite int_base16_0x_ff.
  cbn [list_ascii_of_string app hex_literal].
  change (code "x" =? 120) with true. cbn [orb].
  rewrite (hex_digit_no_underscore _ _ H1).
  rewrite (hex_digits_step _ _ _ _ _ H1), (hex_digits_step _ _ _ _ _ H2),
    (hex_digits_step _ _ _ _ _ H3), (hex_digits_step _ _ _ _ _ H4),
    (hex_digits_step _ _ _ _ _ H5), (hex_digits_step _ _ _ _ _ H6).
  rewrite (hex_digits_step "f" 15), (hex_digits_step "f" 15) by reflexivity.
  cbn [hex_digits].
  apply unpack_six; eauto using hex_digit_range.
Qed.

Lemma pixbuf_of_short_hex (self : layer) (c0 c1 c2 c3 : ascii) (d1 d2 d3 : Z) :
  hex_digit c1 = Some d1 -> hex_digit c2 = Some d2 -> hex_digit c3 = Some d3 ->
  getattr self (swatch_source (ob_class self)) = Ok (VStr (string_of [c0; c1; c2; c3])) ->
  invoke self "get_pixbuf" [] =
  Ok (RPixbuf (GdkPixbuf.mkPixbuf GdkPixbuf.RGB true 8 16 16
                 (repeat (0, d1, byte_of d2 d3, 255) 256)), self).
Proof.
  intros H1 H2 H3 Hattr.
  eapply invoke_pixbuf; [apply get_pixbuf_by_class |].
  cbv beta. rewrite Hattr. unfold string_of.
  cbn [string_of_list_ascii slice_from_1 mbind result_bind].
  rewrite int_base16_0x_ff.
  cbn [list_ascii_of_string app hex_literal].
  change (code "x" =? 120) with true. cbn [orb].
  rewrite (hex_digit_no_underscore _ _ H1).
  rewrite (hex_digits_step _ _ _ _ _ H1), (hex_digits_step _ _ _ _ _ H2),
    (hex_digits_step _ _ _ _ _ H3).
  rewrite (hex_digits_step "f" 15), (hex_digits_step "f" 15) by reflexivity.
  cbn [hex_digits].
  apply unpack_three; eauto using hex_digit_range.
Qed.

(** X8: when the colour that [get_pixbuf] reads (the line colour, the
    marker fill for a [LineLayer]) is a character followed by six
    hexadecimal digits, the swatch is filled with the three bytes written
    and full opacity.  The first character is dropped unread. *)
Theorem swatch_of_hex_triplet (self : layer) (c0 c1 c2 c3 c4 c5 c6 : ascii)
    (d1 d2 d3 d4 d5 d6 : Z) :
  hex_digit c1 = Some d1 -> hex_digit c2 = Some d2 -> hex_digit c3 = Some d3 ->
  hex_digit c4 = Some d4 -> hex_digit c5 = Some d5 -> hex_digit c6 = Some d6 ->
  getattr self (swatch_source (ob_class self))
    = Ok (VStr (string_of [c0; c1; c2; c3; c4; c5; c6])) ->
  swatch self (byte_of d1 d2, byte_of d3 d4, byte_of d5 d6, 255).
Proof.
  intros H1 H2 H3 H4 H5 H6 Hattr. unfold swatch.
  eexists. split.
  - by apply (pixbuf_of_hex_triplet self c0 c1 c2 c3 c4 c5 c6).
  - repeat split.
Qed.

(** X9: the swatch and the colour getter of the same attribute agree
    on a "#RRGGBB" string: the bytes that fill the swatch are the leading
    bytes of the [Gdk.Color] the getter returns, at full opacity. *)
Theorem swatch_matches_rgba (self : layer) (g : string)
    (c1 c2 c3 c4 c5 c6 : ascii) (d1 d2 d3 d4 d5 d6 : Z) :
  (g, swatch_source (ob_class self)) ∈ rgba_getters ->
  hex_digit c1 = Some d1 -> hex_digit c2 = Some d2 -> hex_digit c3 = Some d3 ->
  hex_digit c4 = Some d4 -> hex_digit c5 = Some d5 -> hex_digit c6 = Some d6 ->
  getattr self (swatch_source (ob_class self))
    = Ok (VStr (string_of ["#"%char; c1; c2; c3; c4; c5; c6])) ->
  exists col : Gdk.Color.t,
    invoke self g [] = Ok (RColor col, self) /\
    swatch self (fst (fst (Gdk.Color.to_bytes col)), snd (fst (Gdk.Color.to_bytes col)),
                 snd (Gdk.Color.to_bytes col), 255).
Proof.
  intros Hg H1 H2 H3 H4 H5 H6 Hattr.
  destruct (byte_channel d1 d2) as (_ & _ & _ & _ & B12); eauto using hex_digit_range.
  destruct (byte_channel d3 d4) as (_ & _ & _ & _ & B34); eauto using hex_digit_range.
  destruct (byte_channel d5 d6) as (_ & _ & _ & _ & B56); eauto using hex_digit_range.
  eexists. split.
  - rewrite (rgba_getter_reads _ _ _ _ Hg Hattr), bind_assoc_color.
    by rewrite (color_of_hex_triplet _ _ _ _ _ _ _ _ _ _ _ _ H1 H2 H3 H4 H5 H6).
  - unfold Gdk.Color.to_bytes; cbn [Gdk.Color.red Gdk.Color.green Gdk.Color.blue fst snd].
    rewrite B12, B34, B56. unfold swatch. eexists. split.
    + by apply (pixbuf_of_hex_triplet self "#"%char c1 c2 c3 c4 c5 c6).
    + repeat split.
Qed.


(** X11: on the short form "#RGB" the swatch and the colour getter part
    ways: the getter reads the bytes (17 R, 17 G, 17 B), while [get_pixbuf]
    packs the three digits and its own "ff" into one number and fills the
    swatch with (0, R, 16 G + B, 255). *)
Theorem swatch_of_short_hex (self : layer) (g : string) (c1 c2 c3 : ascii) (d1 d2 d3 : Z) :
  (g, swatch_source (ob_class self)) ∈ rgba_getters ->
  hex_digit c1 = Some d1 -> hex_digit c2 = Some d2 -> hex_digit c3 = Some d3 ->
  getattr self (swatch_source (ob_class self))
    = Ok (VStr (string_of ["#"%char; c1; c2; c3])) ->
  exists col : Gdk.Color.t,
    invoke self g [] = Ok (RColor col, self) /\
    Gdk.Color.to_bytes col = (17 * d1, 17 * d2, 17 * d3) /\
    swatch self (0, d1, byte_of d2 d3, 255).
Proof.
  intros Hg H1 H2 H3 Hattr.
  destruct (digit_channel d1) as (_ & _ & _ & _ & B1); eauto using hex_digit_range.
  destruct (digit_channel d2) as (_ & _ & _ & _ & B2); eauto using hex_digit_range.
  destruct (digit_channel d3) as (_ & _ & _ & _ & B3); eauto using hex_digit_range.
  eexists. split; [| split].
  - rewrite (rgba_getter_reads _ _ _ _ Hg Hattr), bind_assoc_color.
    by rewrite (color_of_short_hex _ _ _ _ _ _ H1 H2 H3).
  - unfold Gdk.Color.to_bytes; cbn [Gdk.Color.red Gdk.Color.green Gdk.Color.blue].
    by rewrite B1, B2, B3.
  - unfold swatch. eexists. split.
    + by apply (pixbuf_of_short_hex self "#"%char c1 c2 c3).
    + repeat split.
Qed.

(** X12: a setter of another attribute changes neither the swatch nor a
    colour getter's result: [get_pixbuf] depends on the one attribute its
    class reads, each colour getter on its own. *)
Theorem derived_getters_frame (self : layer) (a : string) (v : value) :
  a ∈ setter_stems (ob_class self) ->
  (attribute_of a ≠ swatch_source (ob_class self) ->
   fst <$> invoke (setattr self (attribute_of a) v) "get_pixbuf" []
   = fst <$> invoke self "get_pixbuf" []) /\
  (forall g attr : string,
     (g, attr) ∈ rgba_getters -> attribute_of a ≠ attr ->
     fst <$> invoke (setattr self (attribute_of a) v) g [] = fst <$> invoke self g []).
Proof.
  intros Ha. split.
  - intros Hne. unfold invoke.
    rewrite (get_pixbuf_by_class (setattr self (attribute_of a) v)), (get_pixbuf_by_class self).
    cbn [ob_class setattr]. rewrite getattr_setattr_ne by done.
    destruct (getattr self (swatch_source (ob_class self))) as [x |]; [| done].
    cbn [mbind result_bind]. destruct (slice_from_1 x) as [t |]; [| done].
    cbn [mbind result_bind]. destruct (int_base16 (format_0x_ff t)) as [n |]; [| done].
    cbn [mbind result_bind].
    by destruct (GdkPixbuf.fill (GdkPixbuf.new GdkPixbuf.RGB true 8 16 16) n).
  - intros g attr Hg Hne. unfold invoke.
    rewrite (resolve_rgba_getter (ob_class (setattr self (attribute_of a) v)) _ _ Hg),
      (resolve_rgba_getter (ob_class self) _ _ Hg).
    cbv zeta. rewrite getattr_setattr_ne by done.
    destruct (getattr self attr) as [x |]; [| done].
    cbn [mbind result_bind].
    destruct (Gdk.RGBA.parse named_color Gdk.RGBA.new x) as [parsed |]; [| done].
    cbn [mbind result_bind]. by destruct (Gdk.RGBA.to_color parsed.2).
Qed.

(** ** The four classes *)



End Layers.

(** ** Instances of the statements *)

(** On a fresh [LineLayer]: [set_line_width(3)], then [get_line_width()]. *)
Lemma set_then_get_witness :
  "line_width" ∈ paired_stems no_named_colors
    (ob_class (init_of CLineLayer (blank CLineLayer) (VObj 1) (VObj 2))) /\
  exists self',
    invoke no_named_colors (init_of CLineLayer (blank CLineLayer) (VObj 1) (VObj 2))
      ("set_" ++ "line_width") [VInt 3] = Ok (RNone, self') /\
    invoke no_named_colors self' ("get_" ++ "line_width") [] = Ok (RValue (VInt 3), self').
Proof.
  split; [| apply set_then_get];
    apply (bool_decide_unpack _); vm_compute; reflexivity.
Defined.

(** On a fresh [FaultPlaneLayer]: [set_line_alpha(0.5)]. *)
Lemma setter_frame_witness :
  "line_alpha" ∈ setter_stems no_named_colors
    (ob_class (init_of CFaultPlaneLayer (blank CFaultPlaneLayer) (VObj 1) (VObj 2))) /\
  exists self',
    invoke no_named_colors (init_of CFaultPlaneLayer (blank CFaultPlaneLayer) (VObj 1) (VObj 2))
      ("set_" ++ "line_alpha") [VFloat (float_div (float_of_Z 1) (float_of_Z 2))]
      = Ok (RNone, self') /\
    ob_class self' = CFaultPlaneLayer /\
    (forall k : string, k ≠ attribute_of "line_alpha" ->
       ob_dict self' !! k =
       ob_dict (init_of CFaultPlaneLayer (blank CFaultPlaneLayer) (VObj 1) (VObj 2)) !! k) /\
    (forall b : string,
       b ∈ getter_stems no_named_colors CFaultPlaneLayer -> b ≠ "line_alpha" ->
       fst <$> invoke no_named_colors self' ("get_" ++ b) [] =
       fst <$> invoke no_named_colors
                 (init_of CFaultPlaneLayer (blank CFaultPlaneLayer) (VObj 1) (VObj 2))
                 ("get_" ++ b) []).
Proof.
  split; [| apply (setter_frame no_named_colors
                     (init_of CFaultPlaneLayer (blank CFaultPlaneLayer) (VObj 1) (VObj 2)))];
    apply (bool_decide_unpack _); vm_compute; reflexivity.
Defined.

(** On a fresh [PlaneLayer] whose line colour was set to "#ff7e00". *)
Lemma line_rgba_of_hex_triplet_witness :
  getattr (set_line_color (init_of CPlaneLayer (blank CPlaneLayer) (VObj 1) (VObj 2))
             (VStr "#ff7e00")) "line_color" = Ok (VStr "#ff7e00") /\
  invoke no_named_colors
    (set_line_color (init_of CPlaneLayer (blank CPlaneLayer) (VObj 1) (VObj 2))
       (VStr "#ff7e00")) "get_rgba" []
  = Ok (RColor (Gdk.Color.mk 65535 32382 0),
        set_line_color (init_of CPlaneLayer (blank CPlaneLayer) (VObj 1) (VObj 2))
          (VStr "#ff7e00")).
Proof.
  split; [| apply line_rgba_of_hex_triplet]; vm_compute; reflexivity.
Defined.

(** "notacolor" is rejected by the parser; the layer reads white. *)
Lemma rejected_line_color_reads_white_witness :
  fst <$> Gdk.RGBA.parse no_named_colors Gdk.RGBA.new (VStr "notacolor") = Ok false /\
  exists self',
    invoke no_named_colors (init_of CPlaneLayer (blank CPlaneLayer) (VObj 1) (VObj 2))
      "set_line_color" [VStr "notacolor"] = Ok (RNone, self') /\
    returns no_named_colors self' "get_line_color" (VStr "notacolor") /\
    invoke no_named_colors self' "get_rgba" [] = Ok (RColor white, self').
Proof.
  split; [| apply rejected_line_color_reads_white]; vm_compute; reflexivity.
Defined.

(** Against C9 as stated: after [set_line_color("notacolor")], and
    likewise after [set_line_color("#zzzzzz")], the call [get_rgba()]
    raises nothing; it returns white. *)
Lemma notacolor_does_not_raise :
  invoke no_named_colors (init_of CPlaneLayer (blank CPlaneLayer) (VObj 1) (VObj 2))
    "set_line_color" [VStr "notacolor"]
  = Ok (RNone, set_line_color (init_of CPlaneLayer (blank CPlaneLayer) (VObj 1) (VObj 2))
                 (VStr "notacolor")) /\
  ~ raises (invoke no_named_colors
              (set_line_color (init_of CPlaneLayer (blank CPlaneLayer) (VObj 1) (VObj 2))
                 (VStr "notacolor")) "get_rgba" []) /\
  get_rgba no_named_colors
    (set_line_color (init_of CPlaneLayer (blank CPlaneLayer) (VObj 1) (VObj 2))
       (VStr "notacolor")) = Ok white /\
  get_rgba no_named_colors
    (set_line_color (init_of CPlaneLayer (blank CPlaneLayer) (VObj 1) (VObj 2))
       (VStr "#zzzzzz")) = Ok white.
Proof.
  assert (H : get_rgba no_named_colors
                (set_line_color (init_of CPlaneLayer (blank CPlaneLayer) (VObj 1) (VObj 2))
                   (VStr "notacolor")) = Ok white) by (vm_compute; reflexivity).
  split; [| split; [| split]].
  - reflexivity.
  - intros [e He]. rewrite invoke_get_rgba, H in He. discriminate He.
  - exact H.
  - vm_compute; reflexivity.
Qed.

(** Against C10 as stated: [PlaneLayer(None, None)] is constructed. *)
Lemma construction_with_None_succeeds :
  construct CPlaneLayer [VNone; VNone]
  = Ok (PlaneLayer__init__ (blank CPlaneLayer) VNone VNone) /\
  ~ raises (construct CPlaneLayer [VNone; VNone]) /\
  getattr (PlaneLayer__init__ (blank CPlaneLayer) VNone VNone) "data_treestore" = Ok VNone /\
  getattr (PlaneLayer__init__ (blank CPlaneLayer) VNone VNone) "data_treeview" = Ok VNone.
Proof.
  split; [| split; [| split]].
  - reflexivity.
  - intros [e He]. discriminate He.
  - vm_compute; reflexivity.
  - vm_compute; reflexivity.
Qed.

(** ** Instances of the further statements *)

Ltac decided := apply (bool_decide_unpack _); vm_compute; reflexivity.

(** [set_line_color] and [set_label] on a new [PlaneLayer], both ways. *)
Lemma setters_commute_witness :
  exists final : layer,
    (r ← invoke no_named_colors (sample CPlaneLayer) ("set_" ++ "line_color") [VStr "#ff0000"];
     invoke no_named_colors (snd r) ("set_" ++ "label") [VStr "Bedding"])
      = Ok (RNone, final) /\
    (r ← invoke no_named_colors (sample CPlaneLayer) ("set_" ++ "label") [VStr "Bedding"];
     invoke no_named_colors (snd r) ("set_" ++ "line_color") [VStr "#ff0000"])
      = Ok (RNone, final).
Proof.
  apply (setters_commute no_named_colors (sample CPlaneLayer) "line_color" "label");
    [decided | decided | discriminate].
Defined.

(** [set_rose_spacing(5)] then [set_rose_spacing(15)] on a new
    [LineLayer]. *)
Lemma last_set_wins_witness :
  (r ← invoke no_named_colors (sample CLineLayer) ("set_" ++ "rose_spacing") [VInt 5];
   invoke no_named_colors (snd r) ("set_" ++ "rose_spacing") [VInt 15])
  = invoke no_named_colors (sample CLineLayer) ("set_" ++ "rose_spacing") [VInt 15].
Proof.
  apply (last_set_wins no_named_colors (sample CLineLayer) "rose_spacing"). decided.
Defined.

(** [set_colormap("Blues")] on a new [SmallCircleLayer], whose colormap
    is "Blues". *)
Lemma set_what_get_returned_witness :
  invoke no_named_colors (sample CSmallCircleLayer) ("set_" ++ "colormap") [VStr "Blues"]
  = Ok (RNone, sample CSmallCircleLayer).
Proof.
  apply (set_what_get_returned no_named_colors (sample CSmallCircleLayer) "colormap");
    [decided |].
  apply (returns_stored no_named_colors (sample CSmallCircleLayer) "colormap");
    [decided | vm_compute; reflexivity].
Defined.




(** The marker fill "#1283eb" of a new [LineLayer]. *)
Lemma hex_triplet_is_decoded_witness :
  invoke no_named_colors (sample CLineLayer) "get_marker_rgba" [] =
    Ok (RColor (Gdk.Color.mk (257 * byte_of 1 2) (257 * byte_of 8 3) (257 * byte_of 14 11)),
        sample CLineLayer) /\
  Gdk.Color.to_bytes (Gdk.Color.mk (257 * byte_of 1 2) (257 * byte_of 8 3)
                        (257 * byte_of 14 11))
  = (byte_of 1 2, byte_of 8 3, byte_of 14 11).
Proof.
  apply (hex_triplet_is_decoded no_named_colors (sample CLineLayer)
           "get_marker_rgba" "marker_fill" "1" "2" "8" "3" "e" "b");
    first [decided | vm_compute; reflexivity].
Defined.

(** The line colour "#0000ff" of a new [SmallCircleLayer]. *)
Lemma swatch_of_hex_triplet_witness :
  swatch no_named_colors (sample CSmallCircleLayer)
    (byte_of 0 0, byte_of 0 0, byte_of 15 15, 255).
Proof.
  apply (swatch_of_hex_triplet no_named_colors (sample CSmallCircleLayer)
           "#" "0" "0" "0" "0" "f" "f");
    vm_compute; reflexivity.
Defined.

(** The marker fill "#1283eb" of a new [LineLayer] and
    [get_marker_rgba]. *)
Lemma swatch_matches_rgba_witness :
  exists col : Gdk.Color.t,
    invoke no_named_colors (sample CLineLayer) "get_marker_rgba" []
      = Ok (RColor col, sample CLineLayer) /\
    swatch no_named_colors (sample CLineLayer)
      (fst (fst (Gdk.Color.to_bytes col)), snd (fst (Gdk.Color.to_bytes col)),
       snd (Gdk.Color.to_bytes col), 255).
Proof.
  apply (swatch_matches_rgba no_named_colors (sample CLineLayer) "get_marker_rgba"
           "1" "2" "8" "3" "e" "b" 1 2 8 3 14 11);
    first [decided | vm_compute; reflexivity].
Defined.


(** The line colour "#f00" on a [PlaneLayer]: red for [get_rgba],
    (0, 15, 0) for the swatch. *)
Lemma swatch_of_short_hex_witness :
  exists col : Gdk.Color.t,
    invoke no_named_colors (set_line_color (sample CPlaneLayer) (VStr "#f00")) "get_rgba" []
      = Ok (RColor col, set_line_color (sample CPlaneLayer) (VStr "#f00")) /\
    Gdk.Color.to_bytes col = (17 * 15, 17 * 0, 17 * 0) /\
    swatch no_named_colors (set_line_color (sample CPlaneLayer) (VStr "#f00"))
      (0, 15, byte_of 0 0, 255).
Proof.
  apply (swatch_of_short_hex no_named_colors
           (set_line_color (sample CPlaneLayer) (VStr "#f00")) "get_rgba" "f" "0" "0");
    first [decided | vm_compute; reflexivity].
Defined.

(** [set_line_color] on a new [LineLayer], whose swatch shows the marker
    fill. *)
Lemma derived_getters_frame_witness :
  (attribute_of "line_color" ≠ swatch_source (ob_class (sample CLineLayer)) ->
   fst <$> invoke no_named_colors
             (setattr (sample CLineLayer) (attribute_of "line_color") (VStr "#ff0000"))
             "get_pixbuf" []
   = fst <$> invoke no_named_colors (sample CLineLayer) "get_pixbuf" []) /\
  (forall g attr : string,
     (g, attr) ∈ rgba_getters -> attribute_of "line_color" ≠ attr ->
     fst <$> invoke no_named_colors
               (setattr (sample CLineLayer) (attribute_of "line_color") (VStr "#ff0000")) g []
     = fst <$> invoke no_named_colors (sample CLineLayer) g []).
Proof.
  apply (derived_getters_frame no_named_colors (sample CLineLayer) "line_color"). decided.
Defined.

